(** * Streaming consumers of buzzline-03: rolling window, stall and
    hot-streak detection, per-continent running averages.

    The development embeds [consumers/csv_consumer_mcruz.py] and
    [consumers/json_consumer_mcruz.py].  Python values are the values
    [json.loads] can build; floats are IEEE binary64 (the kernel's primitive
    floats), ints are unbounded.  Mutable objects ([deque], [defaultdict], the
    logger) are threaded through a state-and-exception monad, so that a
    mutation made before an exception is raised is kept, as in Python. *)

From Stdlib Require Import ZArith List String Ascii Bool Lia.
From Stdlib Require Import PrimFloat FloatOps SpecFloat.
Import ListNotations.

Set Warnings "-register-all,-inexact-float".

Local Open Scope string_scope.
Local Open Scope list_scope.
Local Open Scope Z_scope.

(** ** Python values and exceptions *)

Module Py.

(** The exception classes the two consumers can meet. *)
Inductive exn : Set :=
| JSONDecodeError
| AttributeError
| TypeError
| ValueError
| ZeroDivisionError
| OverflowError.

Inductive result (A : Type) : Type :=
| Ok (a : A)
| Raise (e : exn).
Arguments Ok {A} a.
Arguments Raise {A} e.

(** What [json.loads] returns: [None], [bool], [int], [float], [str], [list]
    and [dict] with string keys (kept as the list of its items, keys
    distinct).  Strings are compared character by character. *)
Inductive value : Type :=
| PNone
| PBool (b : bool)
| PInt (z : Z)
| PFloat (f : float)
| PStr (s : string)
| PList (l : list value)
| PDict (d : list (string * value)).

(** Numbers: [bool] is a subclass of [int]. *)
Inductive num : Type :=
| NInt (z : Z)
| NFloat (f : float).

Definition as_num (v : value) : option num :=
  match v with
  | PBool b => Some (NInt (Z.b2z b))
  | PInt z => Some (NInt z)
  | PFloat f => Some (NFloat f)
  | _ => None
  end.

(** [float(z)] for an int: rounded to nearest even, [OverflowError] when the
    int is too large for a binary64. *)
Definition float_of_int (z : Z) : result float :=
  let f := SF2Prim (binary_normalize prec emax z 0 false) in
  if is_infinity f then Raise OverflowError else Ok f.

(** [a / b] on two ints: the correctly rounded quotient.  The quotient is
    taken with enough extra bits, the last one sticky. *)
Definition int_true_divide (a b : Z) : result float :=
  if b =? 0 then Raise ZeroDivisionError
  else
    let neg := xorb (a <? 0) (b <? 0) in
    if a =? 0 then Ok (if neg then neg_zero else zero)
    else
      let a' := Z.abs a in
      let b' := Z.abs b in
      let k := Z.max 0 (64 + Z.log2 b' - Z.log2 a') in
      let q := (a' * 2 ^ k) / b' in
      let r := (a' * 2 ^ k) mod b' in
      let m := 2 * q + (if r =? 0 then 0 else 1) in
      let f := SF2Prim (binary_normalize prec emax
                          (if neg then - m else m) (- k - 1) neg) in
      if is_infinity f then Raise OverflowError else Ok f.

(** Exact comparison of an int with a float, as CPython does it; [None] when
    the float is a NaN. *)
Definition compare_int_float (z : Z) (f : float) : option comparison :=
  match Prim2SF f with
  | S754_nan => None
  | S754_infinity s => Some (if s then Gt else Lt)
  | S754_zero _ => Some (z ?= 0)
  | S754_finite s m e =>
      let v := if s then Z.neg m else Z.pos m in
      if 0 <=? e then Some (z ?= v * 2 ^ e)
      else Some (z * 2 ^ (- e) ?= v)
  end.

Definition compare_floats (f g : float) : option comparison :=
  match PrimFloat.compare f g with
  | FEq => Some Eq
  | FLt => Some Lt
  | FGt => Some Gt
  | FNotComparable => None
  end.

Definition num_compare (x y : num) : option comparison :=
  match x, y with
  | NInt a, NInt b => Some (a ?= b)
  | NFloat f, NFloat g => compare_floats f g
  | NInt a, NFloat g => compare_int_float a g
  | NFloat f, NInt b => option_map CompOpp (compare_int_float b f)
  end.

(** The four ordering operators. *)
Inductive cmpop : Set := OpLt | OpLe | OpGt | OpGe.

Definition holds (op : cmpop) (c : comparison) : bool :=
  match op, c with
  | OpLt, Lt => true
  | OpLe, (Lt | Eq) => true
  | OpGt, Gt => true
  | OpGe, (Gt | Eq) => true
  | _, _ => false
  end.

(** With a NaN on either side every ordering comparison is false. *)
Definition num_cmp (op : cmpop) (x y : num) : bool :=
  match num_compare x y with
  | Some c => holds op c
  | None => false
  end.

Definition num_eqb (x y : num) : bool :=
  match num_compare x y with
  | Some Eq => true
  | _ => false
  end.

Fixpoint dict_lookup {A : Type} (k : string) (d : list (string * A)) : option A :=
  match d with
  | [] => None
  | (k', v) :: d' => if String.eqb k k' then Some v else dict_lookup k d'
  end.

(** [a == b]; never raises on these values. *)
Fixpoint py_eq (a b : value) {struct a} : bool :=
  match a, b with
  | PNone, PNone => true
  | PStr s, PStr t => String.eqb s t
  | PList l, PList m =>
      (fix all2 (l m : list value) {struct l} : bool :=
         match l, m with
         | [], [] => true
         | x :: l', y :: m' => py_eq x y && all2 l' m'
         | _, _ => false
         end) l m
  | PDict d, PDict e =>
      Nat.eqb (List.length d) (List.length e) &&
      (fix incl (d : list (string * value)) {struct d} : bool :=
         match d with
         | [] => true
         | (k, v) :: d' =>
             match dict_lookup k e with
             | Some w => py_eq v w && incl d'
             | None => false
             end
         end) d
  | _, _ =>
      match as_num a, as_num b with
      | Some x, Some y => num_eqb x y
      | _, _ => false
      end
  end.

(** [a op b] for an ordering operator: numbers among themselves, strings
    among themselves, lists item by item; anything else is a [TypeError]. *)
Fixpoint py_cmp (op : cmpop) (a b : value) {struct a} : result bool :=
  match a, b with
  | PStr s, PStr t => Ok (holds op (String.compare s t))
  | PList l, PList m =>
      (fix lex (l m : list value) {struct l} : result bool :=
         match l, m with
         | x :: l', y :: m' => if py_eq x y then lex l' m' else py_cmp op x y
         | _, _ => Ok (holds op (Nat.compare (List.length l) (List.length m)))
         end) l m
  | _, _ =>
      match as_num a, as_num b with
      | Some x, Some y => Ok (num_cmp op x y)
      | _, _ => Raise TypeError
      end
  end.

(** [a + b]. *)
Definition py_add (a b : value) : result value :=
  match as_num a, as_num b with
  | Some (NInt x), Some (NInt y) => Ok (PInt (x + y))
  | Some (NFloat f), Some (NFloat g) => Ok (PFloat (f + g))
  | Some (NInt x), Some (NFloat g) =>
      match float_of_int x with
      | Ok f => Ok (PFloat (f + g))
      | Raise e => Raise e
      end
  | Some (NFloat f), Some (NInt y) =>
      match float_of_int y with
      | Ok g => Ok (PFloat (f + g))
      | Raise e => Raise e
      end
  | _, _ =>
      match a, b with
      | PStr s, PStr t => Ok (PStr (String.append s t))
      | PList l, PList m => Ok (PList (l ++ m))
      | _, _ => Raise TypeError
      end
  end.

(** [a - b]. *)
Definition py_sub (a b : value) : result value :=
  match as_num a, as_num b with
  | Some (NInt x), Some (NInt y) => Ok (PInt (x - y))
  | Some (NFloat f), Some (NFloat g) => Ok (PFloat (f - g))
  | Some (NInt x), Some (NFloat g) =>
      match float_of_int x with
      | Ok f => Ok (PFloat (f - g))
      | Raise e => Raise e
      end
  | Some (NFloat f), Some (NInt y) =>
      match float_of_int y with
      | Ok g => Ok (PFloat (f - g))
      | Raise e => Raise e
      end
  | _, _ => Raise TypeError
  end.

Definition float_div (f g : float) : result value :=
  if is_zero g then Raise ZeroDivisionError else Ok (PFloat (f / g)).

(** [a / b], true division.  A zero divisor is a [ZeroDivisionError].  With
    a float on the left and an int on the right CPython converts the int and
    tests the double against 0.0; [float(y)] is 0.0 exactly when [y] is 0, so
    the test is written on the int. *)
Definition py_truediv (a b : value) : result value :=
  match as_num a, as_num b with
  | Some (NInt x), Some (NInt y) =>
      match int_true_divide x y with
      | Ok f => Ok (PFloat f)
      | Raise e => Raise e
      end
  | Some (NFloat f), Some (NFloat g) => float_div f g
  | Some (NInt x), Some (NFloat g) =>
      match float_of_int x with
      | Ok f => float_div f g
      | Raise e => Raise e
      end
  | Some (NFloat f), Some (NInt y) =>
      if y =? 0 then Raise ZeroDivisionError
      else
        match float_of_int y with
        | Ok g => Ok (PFloat (f / g))
        | Raise e => Raise e
        end
  | _, _ => Raise TypeError
  end.

(** Truth value, as tested by [if v:]. *)
Definition truthy (v : value) : bool :=
  match v with
  | PNone => false
  | PBool b => b
  | PInt z => negb (z =? 0)
  | PFloat f => negb (is_zero f)
  | PStr s => negb (String.eqb s "")
  | PList l => match l with [] => false | _ => true end
  | PDict d => match d with [] => false | _ => true end
  end.

(** [list] and [dict] cannot be hashed, hence cannot be dict keys. *)
Definition hashable (v : value) : bool :=
  match v with
  | PList _ | PDict _ => false
  | _ => true
  end.

Definition is_None (v : value) : bool :=
  match v with
  | PNone => true
  | _ => false
  end.

(** [data.get(key)]: only a dict has the method; a missing key gives [None]. *)
Definition get (data : value) (key : string) : result value :=
  match data with
  | PDict d =>
      match dict_lookup key d with
      | Some v => Ok v
      | None => Ok PNone
      end
  | _ => Raise AttributeError
  end.

(** [max] and [min] keep the first item and replace it by each later item
    that compares strictly greater (smaller). *)
Fixpoint extremum (op : cmpop) (best : value) (rest : list value) : result value :=
  match rest with
  | [] => Ok best
  | item :: rest' =>
      match py_cmp op item best with
      | Ok true => extremum op item rest'
      | Ok false => extremum op best rest'
      | Raise e => Raise e
      end
  end.

Definition py_max (items : list value) : result value :=
  match items with
  | [] => Raise ValueError
  | x :: rest => extremum OpGt x rest
  end.

Definition py_min (items : list value) : result value :=
  match items with
  | [] => Raise ValueError
  | x :: rest => extremum OpLt x rest
  end.

(** [sum]: starts from the int 0 and adds the items from left to right,
    with the plain [+] of CPython up to 3.11 (no compensated summation). *)
Fixpoint sum_from (acc : value) (items : list value) : result value :=
  match items with
  | [] => Ok acc
  | x :: rest =>
      match py_add acc x with
      | Ok acc' => sum_from acc' rest
      | Raise e => Raise e
      end
  end.

Definition py_sum (items : list value) : result value := sum_from (PInt 0) items.

(** [collections.deque] with a [maxlen]. *)
Record deque : Type := { maxlen : Z; items : list value }.

(** [deque(maxlen=n)]. *)
Definition deque_new (n : Z) : result deque :=
  if n <? 0 then Raise ValueError else Ok {| maxlen := n; items := [] |}.

Definition len (d : deque) : Z := Z.of_nat (List.length (items d)).

(** [d.append(x)]: the item goes to the right end; when that makes the deque
    longer than [maxlen] the leftmost item is dropped. *)
Definition append (d : deque) (x : value) : deque :=
  let items' := items d ++ [x] in
  {| maxlen := maxlen d;
     items := if maxlen d <? Z.of_nat (List.length items') then tl items' else items' |}.

End Py.

(** ** State, exceptions and the logger

    A computation runs from a store of type [S]; it returns a value or raises,
    together with the store it leaves and the log records it wrote, in
    order.  What was mutated or logged before a [Raise] stays. *)

Module Eff.
Import Py.

Definition M (S L A : Type) : Type := S -> result A * S * list L.

Section Ops.
Context {S L : Type}.

Definition ret {A : Type} (a : A) : M S L A := fun s => (Ok a, s, []).

Definition bind {A B : Type} (m : M S L A) (k : A -> M S L B) : M S L B :=
  fun s =>
    match m s with
    | (Ok a, s1, l1) =>
        match k a s1 with
        | (r, s2, l2) => (r, s2, l1 ++ l2)
        end
    | (Raise e, s1, l1) => (Raise e, s1, l1)
    end.

Definition raise {A : Type} (e : exn) : M S L A := fun s => (Raise e, s, []).

Definition lift {A : Type} (r : result A) : M S L A := fun s => (r, s, []).

Definition read : M S L S := fun s => (Ok s, s, []).

Definition modify (f : S -> S) : M S L unit := fun s => (Ok tt, f s, []).

Definition emit (l : L) : M S L unit := fun s => (Ok tt, s, [l]).

(** [try: body except Exception as e: handler(e)]. *)
Definition try_except {A : Type} (body : M S L A) (handler : exn -> M S L A) : M S L A :=
  fun s =>
    match body s with
    | (Ok a, s1, l1) => (Ok a, s1, l1)
    | (Raise e, s1, l1) =>
        match handler e s1 with
        | (r, s2, l2) => (r, s2, l1 ++ l2)
        end
    end.

End Ops.

Definition outcome {S L A : Type} (x : result A * S * list L) : result A := fst (fst x).
Definition store {S L A : Type} (x : result A * S * list L) : S := snd (fst x).
Definition logged {S L A : Type} (x : result A * S * list L) : list L := snd x.

Declare Scope eff_scope.
Delimit Scope eff_scope with eff.
Notation "x <- m ;; k" := (bind m (fun x => k))
  (at level 61, m at next level, right associativity) : eff_scope.
Notation "m ;; k" := (bind m (fun _ => k))
  (at level 61, right associativity) : eff_scope.

End Eff.

(** ** consumers/csv_consumer_mcruz.py *)

Module Csv.
Import Py Eff.
Local Open Scope eff_scope.

Inductive level : Set := DEBUG | INFO | ERROR.

(** One constructor per [logger] call of the file; the arguments are the
    values its f-string interpolates. *)
Inductive record : Type :=
| KafkaTopic (topic : string)
| KafkaConsumerGroupId (group_id : string)
| MaxStallTemperatureRange (temp_variation : float)
| RollingWindowSize (window_size : Z)
| WaitingFor (length : Z) (WINDOW_SIZE : Z)
| TemperatureRange (temp_range : value) (is_stalled : bool)
| RawMessage (message : string)
| ProcessedJSONMessage (data : value)
| InvalidMessageFormat (message : string)
| StallDetected (timestamp temperature : value) (window_size : Z)
| ContinentAvg (continent avg_temp : value) (count : Z)
| JSONDecodingError (message : string)
| ErrorProcessingMessage (message : string) (e : exn)
| StartConsumer
| ConsumerTopicGroup (topic group_id : string)
| PollingMessages (topic : string)
| ReceivedMessage (offset : Z) (message_str : string)
| ConsumerClosed (topic : string).

Definition log_line : Type := level * record.

(** The environment, as the getters read it: the values [os.getenv] gives
    after [int] and [float] converted them (defaults 5 and 0.2). *)
Record environ : Type := {
  SMOKER_TOPIC : string;
  SMOKER_CONSUMER_GROUP_ID : string;
  SMOKER_STALL_THRESHOLD_F : float;
  SMOKER_ROLLING_WINDOW_SIZE : Z
}.

(** An item of [continent_stats]: the dict [{"count": _, "sum_temp": _}]. *)
Record stats : Type := { count : Z; sum_temp : value }.

(** The two objects [main] creates and hands to every [process_message]
    call.  [continent_stats] keeps its items in insertion order. *)
Record state : Type := {
  rolling_window : deque;
  continent_stats : list (value * stats)
}.

(** What the Kafka consumer yields. *)
Record kafka_message : Type := { offset : Z; value_of : string }.

Section Consumer.
Variable env : environ.
(** [json.loads], from the standard library: [None] is [JSONDecodeError]. *)
Variable json_loads : string -> option value.

(** The getters and the detector touch no object but the logger. *)
Section Pure.
Context {S : Type}.
Local Abbreviation M := (Eff.M S log_line).

Definition logger (lv : level) (r : record) : M unit := emit (lv, r).

Definition get_kafka_topic : M string :=
  let topic := SMOKER_TOPIC env in
  logger INFO (KafkaTopic topic) ;;
  ret topic.

Definition get_kafka_consumer_group_id : M string :=
  let group_id := SMOKER_CONSUMER_GROUP_ID env in
  logger INFO (KafkaConsumerGroupId group_id) ;;
  ret group_id.

Definition get_stall_threshold : M float :=
  let temp_variation := SMOKER_STALL_THRESHOLD_F env in
  logger INFO (MaxStallTemperatureRange temp_variation) ;;
  ret temp_variation.

Definition get_rolling_window_size : M Z :=
  let window_size := SMOKER_ROLLING_WINDOW_SIZE env in
  logger INFO (RollingWindowSize window_size) ;;
  ret window_size.

Definition detect_stall (rolling_window_deque : deque) : M bool :=
  WINDOW_SIZE <- get_rolling_window_size ;;
  if len rolling_window_deque <? WINDOW_SIZE then
    logger DEBUG (WaitingFor (len rolling_window_deque) WINDOW_SIZE) ;;
    ret false
  else
    hi <- lift (py_max (items rolling_window_deque)) ;;
    lo <- lift (py_min (items rolling_window_deque)) ;;
    temp_range <- lift (py_sub hi lo) ;;
    threshold <- get_stall_threshold ;;
    is_stalled <- lift (py_cmp OpLe temp_range (PFloat threshold)) ;;
    logger DEBUG (TemperatureRange temp_range is_stalled) ;;
    ret is_stalled.

End Pure.

Local Abbreviation M := (Eff.M state log_line).

(** Position of the item of key [k], found with [==] as a dict does. *)
Fixpoint find_key (k : value) (d : list (value * stats)) : option nat :=
  match d with
  | [] => None
  | (k', _) :: d' =>
      if py_eq k' k then Some O else option_map S (find_key k d')
  end.

Fixpoint update_at (i : nat) (f : stats -> stats) (d : list (value * stats))
  {struct d} : list (value * stats) :=
  match d, i with
  | [], _ => []
  | (k, v) :: d', O => (k, f v) :: d'
  | kv :: d', S j => kv :: update_at j f d'
  end.

(** The [defaultdict]'s factory. *)
Definition default_stats : stats := {| count := 0; sum_temp := PFloat 0 |}.

Definition set_continent_stats (f : list (value * stats) -> list (value * stats)) : M unit :=
  modify (fun s => {| rolling_window := rolling_window s;
                      continent_stats := f (continent_stats s) |}).

(** [continent_stats[continent]] on the [defaultdict]: the key is hashed
    first; a missing key is inserted with the factory's value.  The result is
    the position of the item, which stands for the reference to the inner
    dict that the caller then mutates. *)
Definition continent_stats_getitem (continent : value) : M nat :=
  if hashable continent then
    s <- read ;;
    match find_key continent (continent_stats s) with
    | Some i => ret i
    | None =>
        set_continent_stats (fun d => d ++ [(continent, default_stats)]) ;;
        ret (List.length (continent_stats s))
    end
  else raise TypeError.

Definition stats_at (i : nat) : M stats :=
  s <- read ;;
  ret (snd (nth i (continent_stats s) (PNone, default_stats))).

(** The block [# --- continent aggregation ---] of [process_message]. *)
Definition continent_aggregation (continent temperature : value) : M unit :=
  if truthy continent then
    i <- continent_stats_getitem continent ;;
    set_continent_stats
      (update_at i (fun st => {| count := count st + 1; sum_temp := sum_temp st |})) ;;
    st <- stats_at i ;;
    total <- lift (py_add (sum_temp st) temperature) ;;
    set_continent_stats
      (update_at i (fun st => {| count := count st; sum_temp := total |})) ;;
    st <- stats_at i ;;
    avg_temp <- lift (py_truediv (sum_temp st) (PInt (count st))) ;;
    logger INFO (ContinentAvg continent avg_temp (count st))
  else ret tt.

Definition process_message (message : string) (window_size : Z) : M unit :=
  try_except
    (logger DEBUG (RawMessage message) ;;
     data <- match json_loads message with
             | Some v => ret v
             | None => raise JSONDecodeError
             end ;;
     temperature <- lift (get data "temperature") ;;
     timestamp <- lift (get data "timestamp") ;;
     city <- lift (get data "city") ;;
     continent <- lift (get data "continent") ;;
     logger INFO (ProcessedJSONMessage data) ;;
     if is_None temperature || is_None timestamp then
       logger ERROR (InvalidMessageFormat message)
     else
       (* --- rolling stall detection --- *)
       modify (fun s => {| rolling_window := append (rolling_window s) temperature;
                           continent_stats := continent_stats s |}) ;;
       s <- read ;;
       stalled <- detect_stall (rolling_window s) ;;
       (if stalled
        then logger INFO (StallDetected timestamp temperature window_size)
        else ret tt) ;;
       (* --- continent aggregation --- *)
       continent_aggregation continent temperature)
    (fun e =>
       match e with
       | JSONDecodeError => logger ERROR (JSONDecodingError message)
       | _ => logger ERROR (ErrorProcessingMessage message e)
       end).

(** The [for message in consumer] loop of [main]. *)
Fixpoint consume (messages : list kafka_message) (window_size : Z) : M unit :=
  match messages with
  | [] => ret tt
  | message :: rest =>
      let message_str := value_of message in
      logger DEBUG (ReceivedMessage (offset message) message_str) ;;
      process_message message_str window_size ;;
      consume rest window_size
  end.

(** What [main] does before the loop: the getters, then the two objects.  A
    negative window size makes [deque] raise here, outside any [try]. *)
Definition startup : Eff.M unit log_line (string * Z * state) :=
  logger INFO StartConsumer ;;
  topic <- get_kafka_topic ;;
  group_id <- get_kafka_consumer_group_id ;;
  window_size <- get_rolling_window_size ;;
  logger INFO (ConsumerTopicGroup topic group_id) ;;
  logger INFO (RollingWindowSize window_size) ;;
  rolling_window <- lift (deque_new window_size) ;;
  ret (topic, window_size,
       {| rolling_window := rolling_window; continent_stats := [] |}).

(** [main], fed with the messages the Kafka consumer yields: the log, and the
    two objects as the loop leaves them (or the exception of the startup). *)
Definition main (messages : list kafka_message) : list log_line * result state :=
  match startup tt with
  | (Raise e, _, l0) => (l0, Raise e)
  | (Ok (topic, window_size, s0), _, l0) =>
      match (logger INFO (PollingMessages topic) ;;
             consume messages window_size ;;
             logger INFO (ConsumerClosed topic)) s0 with
      | (_, s, l) => (l0 ++ l, Ok s)
      end
  end.

End Consumer.

End Csv.

(** ** consumers/json_consumer_mcruz.py *)

Module Json.
Import Py Eff.
Local Open Scope eff_scope.

Inductive level : Set := DEBUG | INFO | ERROR.

(** One constructor per [logger] call of the file. *)
Inductive record : Type :=
| KafkaTopic (topic : string)
| KafkaConsumerGroupId (group_id : string)
| HotStreakThreshold (threshold : float)
| RollingWindowSize (window_size : Z)
| AvgPPGInWindow (avg_ppg : value) (is_hot : bool)
| RawMessage (message : string)
| InvalidMessageFormat (message : string)
| Received (player team ppg timestamp : value)
| HotStreak (player average : value) (window_size : Z)
| JSONDecodingError
| ErrorProcessingMessage (e : exn)
| StartConsumer
| PollingMessages (topic : string)
| ConsumerClosed (topic : string).

Definition log_line : Type := level * record.

(** The environment after [int] and [float] (defaults 5 and 20.0). *)
Record environ : Type := {
  SMOKER_TOPIC : string;
  SMOKER_CONSUMER_GROUP_ID : string;
  WNBA_HOT_THRESHOLD : float;
  WNBA_ROLLING_WINDOW_SIZE : Z
}.

Section Consumer.
Variable env : environ.
(** [json.loads], from the standard library: [None] is [JSONDecodeError]. *)
Variable json_loads : string -> option value.

Section Pure.
Context {S : Type}.
Local Abbreviation M := (Eff.M S log_line).

Definition logger (lv : level) (r : record) : M unit := emit (lv, r).

Definition get_kafka_topic : M string :=
  let topic := SMOKER_TOPIC env in
  logger INFO (KafkaTopic topic) ;;
  ret topic.

Definition get_kafka_consumer_group_id : M string :=
  let group_id := SMOKER_CONSUMER_GROUP_ID env in
  logger INFO (KafkaConsumerGroupId group_id) ;;
  ret group_id.

Definition get_hot_threshold : M float :=
  let threshold := WNBA_HOT_THRESHOLD env in
  logger INFO (HotStreakThreshold threshold) ;;
  ret threshold.

Definition get_rolling_window_size : M Z :=
  let window_size := WNBA_ROLLING_WINDOW_SIZE env in
  logger INFO (RollingWindowSize window_size) ;;
  ret window_size.

Definition detect_hot_streak (rolling_window : deque) : M bool :=
  match items rolling_window with
  | [] => ret false
  | _ =>
      total <- lift (py_sum (items rolling_window)) ;;
      avg_ppg <- lift (py_truediv total (PInt (len rolling_window))) ;;
      threshold <- get_hot_threshold ;;
      is_hot <- lift (py_cmp OpGe avg_ppg (PFloat threshold)) ;;
      logger DEBUG (AvgPPGInWindow avg_ppg is_hot) ;;
      ret is_hot
  end.

End Pure.

(** The one object [main] creates and hands to every call. *)
Local Abbreviation M := (Eff.M deque log_line).

Definition process_message (message : string) (window_size : Z) : M unit :=
  try_except
    (logger DEBUG (RawMessage message) ;;
     data <- match json_loads message with
             | Some v => ret v
             | None => raise JSONDecodeError
             end ;;
     player <- lift (get data "player") ;;
     team <- lift (get data "team") ;;
     ppg <- lift (get data "ppg") ;;
     timestamp <- lift (get data "timestamp") ;;
     if is_None player || is_None ppg || is_None timestamp then
       logger ERROR (InvalidMessageFormat message)
     else
       logger INFO (Received player team ppg timestamp) ;;
       (* Append points per game to rolling window *)
       modify (fun rolling_window => append rolling_window ppg) ;;
       (* If window is full, check for streaks *)
       rolling_window <- read ;;
       if len rolling_window =? window_size then
         hot <- detect_hot_streak rolling_window ;;
         if hot then
           total <- lift (py_sum (items rolling_window)) ;;
           average <- lift (py_truediv total (PInt window_size)) ;;
           logger INFO (HotStreak player average window_size)
         else ret tt
       else ret tt)
    (fun e =>
       match e with
       | JSONDecodeError => logger ERROR JSONDecodingError
       | _ => logger ERROR (ErrorProcessingMessage e)
       end).

(** The [for message in consumer] loop of [main]. *)
Fixpoint consume (messages : list string) (window_size : Z) : M unit :=
  match messages with
  | [] => ret tt
  | message_str :: rest =>
      process_message message_str window_size ;;
      consume rest window_size
  end.

Definition startup : Eff.M unit log_line (string * Z * deque) :=
  logger INFO StartConsumer ;;
  topic <- get_kafka_topic ;;
  group_id <- get_kafka_consumer_group_id ;;
  window_size <- get_rolling_window_size ;;
  rolling_window <- lift (deque_new window_size) ;;
  ret (topic, window_size, rolling_window).

(** [main], fed with the values of the messages the Kafka consumer yields. *)
Definition main (messages : list string) : list log_line * result deque :=
  match startup tt with
  | (Raise e, _, l0) => (l0, Raise e)
  | (Ok (topic, window_size, rolling_window), _, l0) =>
      match (logger INFO (PollingMessages topic) ;;
             consume messages window_size ;;
             logger INFO (ConsumerClosed topic)) rolling_window with
      | (_, s, l) => (l0 ++ l, Ok s)
      end
  end.

End Consumer.

End Json.

(** ** Notions the properties are stated with *)

Module Window.
Import Py.



(** A deque is full when it holds [maxlen] items. *)
Definition is_full (d : deque) : Prop := len d = maxlen d.


(** [max - min] over the window, as [detect_stall] computes it. *)
Definition range (d : deque) : result value :=
  match py_max (items d) with
  | Ok hi =>
      match py_min (items d) with
      | Ok lo => py_sub hi lo
      | Raise e => Raise e
      end
  | Raise e => Raise e
  end.

(** [sum / len] over the window, as [detect_hot_streak] computes it. *)
Definition mean (d : deque) : result value :=
  match py_sum (items d) with
  | Ok total => py_truediv total (PInt (len d))
  | Raise e => Raise e
  end.

(** The value a decoded record gives a field: [None] when the field is
    missing or null. *)
Definition field (d : list (string * value)) (k : string) : value :=
  match dict_lookup k d with
  | Some v => v
  | None => PNone
  end.

(** The item [continent_stats] holds for a key, if any. *)
Fixpoint stats_get (k : value) (d : list (value * Csv.stats)) : option Csv.stats :=
  match d with
  | [] => None
  | (k', st) :: d' => if py_eq k' k then Some st else stats_get k d'
  end.


(** A value is numeric when it is an [int], a [bool] or a [float]. *)
Definition is_num (v : value) : bool :=
  match as_num v with
  | Some _ => true
  | None => false
  end.

(** The store after the temperature was appended to the window. *)
Definition pushed (s : Csv.state) (temperature : value) : Csv.state :=
  {| Csv.rolling_window := append (Csv.rolling_window s) temperature;
     Csv.continent_stats := Csv.continent_stats s |}.

(** The store with another [continent_stats]. *)
Definition with_stats (s : Csv.state) (d : list (value * Csv.stats)) : Csv.state :=
  {| Csv.rolling_window := Csv.rolling_window s; Csv.continent_stats := d |}.

(** What a key stands at before a reading is recorded: its item, or the
    factory's item when the key was never seen. *)
Definition standing (k : value) (d : list (value * Csv.stats)) : Csv.stats :=
  match stats_get k d with
  | Some st => st
  | None => Csv.default_stats
  end.

(** [continent_stats] after the lookup of a key: a key never seen gets the
    factory's item, at the end. *)
Definition looked_up (k : value) (d : list (value * Csv.stats))
  : nat * list (value * Csv.stats) :=
  match Csv.find_key k d with
  | Some i => (i, d)
  | None => (List.length d, d ++ [(k, Csv.default_stats)])
  end.

(** Every item of [continent_stats] has counted at least one reading. *)
Definition counted (d : list (value * Csv.stats)) : Prop :=
  Forall (fun kv => 1 <= Csv.count (snd kv)) d.

End Window.

(** ** The records the [except] clauses log *)

Module Handlers.
Import Py.

Definition csv_error_line (message : string) (e : exn) : Csv.log_line :=
  match e with
  | JSONDecodeError => (Csv.ERROR, Csv.JSONDecodingError message)
  | _ => (Csv.ERROR, Csv.ErrorProcessingMessage message e)
  end.

Definition json_error_line (e : exn) : Json.log_line :=
  match e with
  | JSONDecodeError => (Json.ERROR, Json.JSONDecodingError)
  | _ => (Json.ERROR, Json.ErrorProcessingMessage e)
  end.

(** The records [detect_stall] and the getters it calls can log. *)
Definition is_detector_line (l : Csv.log_line) : bool :=
  match l with
  | (Csv.INFO, Csv.RollingWindowSize _)
  | (Csv.DEBUG, Csv.WaitingFor _ _)
  | (Csv.INFO, Csv.MaxStallTemperatureRange _)
  | (Csv.DEBUG, Csv.TemperatureRange _ _) => true
  | _ => false
  end.

(** A record of the log that is no report of a division by zero, and whose
    count, when it is the record of an average, is at least one.  The count
    of that record is the divisor of the average. *)
Definition division_safe (l : Csv.log_line) : Prop :=
  match l with
  | (_, Csv.ErrorProcessingMessage _ ZeroDivisionError) => False
  | (_, Csv.ContinentAvg _ _ n) => 1 <= n
  | _ => True
  end.

(** The record the aggregation block logs. *)
Definition is_average_line (l : Csv.log_line) : bool :=
  match l with
  | (Csv.INFO, Csv.ContinentAvg _ _ _) => true
  | _ => false
  end.

End Handlers.

(** ** Concrete inputs used to exercise the properties *)

Module Examples.
Import Py.

(** The environment of the stall consumer with its default window size and
    a given threshold. *)
Definition smoker_env (threshold : float) : Csv.environ :=
  {| Csv.SMOKER_TOPIC := "unknown_topic";
     Csv.SMOKER_CONSUMER_GROUP_ID := "default_group";
     Csv.SMOKER_STALL_THRESHOLD_F := threshold;
     Csv.SMOKER_ROLLING_WINDOW_SIZE := 5 |}.

(** The environment of the hot-streak consumer with its default window size
    and a given threshold. *)
Definition wnba_env (threshold : float) : Json.environ :=
  {| Json.SMOKER_TOPIC := "wnba_topic";
     Json.SMOKER_CONSUMER_GROUP_ID := "wnba_consumer_group";
     Json.WNBA_HOT_THRESHOLD := threshold;
     Json.WNBA_ROLLING_WINDOW_SIZE := 5 |}.

(** The full window [100, 100.1, 99.9, 100.05, 100.0]. *)
Definition flat_window : deque :=
  {| maxlen := 5;
     items := [PInt 100; PFloat 100.1; PFloat 99.9; PFloat 100.05; PFloat 100.0] |}.

(** A window of capacity 5 holding one value. *)
Definition young_window : deque := {| maxlen := 5; items := [PFloat 25] |}.

(** A window of capacity 5 holding four values. *)
Definition four_games : deque :=
  {| maxlen := 5; items := [PInt 25; PInt 26; PInt 24; PInt 27] |}.

(** The fields of the message the hot-streak consumer documents. *)
Definition wnba_fields : list (string * value) :=
  [("timestamp", PStr "2025-09-14T23:30:00Z");
   ("player", PStr "A'ja Wilson");
   ("team", PStr "Las Vegas Aces");
   ("ppg", PFloat 22.8);
   ("rpg", PFloat 9.5);
   ("apg", PFloat 2.1)].

(** The same message without its player. *)
Definition wnba_fields_no_player : list (string * value) :=
  [("timestamp", PStr "2025-09-14T23:30:00Z");
   ("team", PStr "Las Vegas Aces");
   ("ppg", PFloat 22.8)].

(** The fields of the message the stall consumer documents. *)
Definition smoker_fields : list (string * value) :=
  [("timestamp", PStr "2025-01-11T18:15:00Z");
   ("temperature", PFloat 225.0);
   ("city", PStr "Tokyo");
   ("continent", PStr "Asia")].

(** The same message with a null temperature. *)
Definition smoker_fields_null : list (string * value) :=
  [("timestamp", PStr "2025-01-11T18:15:00Z");
   ("temperature", PNone);
   ("city", PStr "Tokyo");
   ("continent", PStr "Asia")].

(** A reading for Asia. *)
Definition asia_fields (temperature : value) : list (string * value) :=
  [("timestamp", PStr "2025-01-11T18:15:00Z");
   ("temperature", temperature);
   ("city", PStr "Tokyo");
   ("continent", PStr "Asia")].

(** A decoder given by the table of the messages it can decode. *)
Definition decodes_by (table : list (string * value)) : string -> option value :=
  fun message => dict_lookup message table.

(** Two messages, the readings 100 then 110 for Asia. *)
Definition asia_decoder : string -> option value :=
  decodes_by [("first", PDict (asia_fields (PInt 100)));
              ("second", PDict (asia_fields (PInt 110)))].

Definition asia_messages : list Csv.kafka_message :=
  [{| Csv.offset := 0; Csv.value_of := "first" |};
   {| Csv.offset := 1; Csv.value_of := "second" |}].

(** A stall-consumer message whose temperature is a string. *)
Definition smoker_fields_text : list (string * value) :=
  [("timestamp", PStr "2025-01-11T18:15:00Z");
   ("temperature", PStr "hot");
   ("city", PStr "Tokyo");
   ("continent", PStr "Asia")].

(** A hot-streak message whose ppg is a string and that has no player. *)
Definition wnba_fields_text_no_player : list (string * value) :=
  [("timestamp", PStr "2025-09-14T23:30:00Z");
   ("ppg", PStr "hot")].

(** A decoder that gives every message the same decoded value. *)
Definition decodes_to (v : value) : string -> option value := fun _ => Some v.

End Examples.

(** ** producers/json_producer_mcruz.py *)

Module Producer.
Import Py Eff.
Local Open Scope eff_scope.

Inductive level : Set := INFO | ERROR.

(** One constructor per [logger] call the modelled paths reach. *)
Inductive record : Type :=
| StartProducer
| KafkaTopic (topic : string)
| DataFrameCreated
| ProducedMessage (message_str : string)
| ErrorProducing (e : exn)
| ProducerClosed (topic : string).

Definition log_line : Type := level * record.

Record environ : Type := { SMOKER_TOPIC : string }.

(** A row of the data frame. *)
Record row : Type := {
  player : string;
  team : string;
  ppg : float;
  rpg : float;
  apg : float
}.

(** [pd.DataFrame] on the five columns: the rows, or [ValueError] when the
    columns do not all have the same length. *)
Fixpoint DataFrame (players teams : list string) (ppgs rpgs apgs : list float)
  : result (list row) :=
  match players, teams, ppgs, rpgs, apgs with
  | [], [], [], [], [] => Ok []
  | p :: players', t :: teams', x :: ppgs', y :: rpgs', z :: apgs' =>
      match DataFrame players' teams' ppgs' rpgs' apgs' with
      | Ok rows =>
          Ok ({| player := p; team := t; ppg := x; rpg := y; apg := z |} :: rows)
      | Raise e => Raise e
      end
  | _, _, _, _, _ => Raise ValueError
  end.

(** What one turn of the generator takes from outside: the draw of
    [df.sample] and the clock of [datetime.utcnow], already formatted. *)
Record draw : Type := { seed : nat; utcnow : string }.

(** [df.sample(1).iloc[0]]: one of the rows, whichever the draw; an empty
    frame cannot be sampled. *)
Definition sample (df : list row) (seed : nat) : result row :=
  match nth_error df (Nat.modulo seed (List.length df)) with
  | Some r => Ok r
  | None => Raise ValueError
  end.

Section Producer.
Variable env : environ.
(** [json.dumps], from the standard library. *)
Variable json_dumps : value -> string.

Section Pure.
Context {S : Type}.
Local Abbreviation M := (Eff.M S log_line).

Definition logger (lv : level) (r : record) : M unit := emit (lv, r).

Definition get_kafka_topic : M string :=
  let topic := SMOKER_TOPIC env in
  logger INFO (KafkaTopic topic) ;;
  ret topic.

Definition create_wnba_dataframe : M (list row) :=
  df <- lift (DataFrame
                ["A'ja Wilson"; "Breanna Stewart"; "Nneka Ogwumike"; "Jewell Loyd";
                 "Sabrina Ionescu"; "Kelsey Plum"; "Arike Ogunbowale";
                 "Elena Delle Donne"]
                ["Las Vegas Aces"; "New York Liberty"; "Seattle Storm";
                 "Seattle Storm"; "New York Liberty"; "Las Vegas Aces";
                 "Dallas Wings"; "Washington Mystics"]
                [22.8; 23.1; 19.3; 24.7; 17.0; 18.7; 21.2; 16.5]%float
                [9.5; 9.2; 8.7; 4.5; 5.8; 2.3; 3.9; 6.8]%float
                [2.1; 3.8; 2.5; 3.2; 6.3; 4.0; 3.7; 2.1]%float) ;;
  logger INFO DataFrameCreated ;;
  ret df.

(** One turn of [generate_messages]: the message it yields.  The pause that
    follows the [yield] changes nothing the consumers can see. *)
Definition generate_message (df : list row) (d : draw) : M value :=
  player_row <- lift (sample df (seed d)) ;;
  ret (PDict [("timestamp", PStr (utcnow d));
              ("player", PStr (player player_row));
              ("team", PStr (team player_row));
              ("ppg", PFloat (ppg player_row));
              ("rpg", PFloat (rpg player_row));
              ("apg", PFloat (apg player_row))]).

End Pure.

(** What was handed to [producer.send]: the topic and the value. *)
Definition sent : Type := list (string * string).

Local Abbreviation M := (Eff.M sent log_line).

(** The [for message in generate_messages(df)] loop of [main], for the
    turns the generator is given. *)
Fixpoint produce (topic : string) (df : list row) (draws : list draw) : M unit :=
  match draws with
  | [] => ret tt
  | d :: rest =>
      message <- generate_message df d ;;
      let message_str := json_dumps message in
      modify (fun out => out ++ [(topic, message_str)]) ;;
      logger INFO (ProducedMessage message_str) ;;
      produce topic df rest
  end.

(** [main], stopped after the given turns of the generator: the log and what
    was sent. *)
Definition main (draws : list draw) : list log_line * sent :=
  match (logger INFO StartProducer ;;
         topic <- get_kafka_topic ;;
         df <- create_wnba_dataframe ;;
         try_except (produce topic df draws)
           (fun e => logger ERROR (ErrorProducing e)) ;;
         logger INFO (ProducerClosed topic)) [] with
  | (_, out, l) => (l, out)
  end.

End Producer.

End Producer.

(** ** Notions for whole runs *)

Module Stream.
Import Py Window.

(** The temperature a message adds to the window of the stall consumer, if
    the message is accepted. *)
Definition csv_reading (json_loads : string -> option value) (message : string)
  : option value :=
  match json_loads message with
  | Some (PDict d) =>
      if is_None (field d "temperature") || is_None (field d "timestamp")
      then None
      else Some (field d "temperature")
  | _ => None
  end.

(** The ppg a message adds to the window of the hot-streak consumer, if the
    message is accepted. *)
Definition json_reading (json_loads : string -> option value) (message : string)
  : option value :=
  match json_loads message with
  | Some (PDict d) =>
      if is_None (field d "player") || is_None (field d "ppg")
         || is_None (field d "timestamp")
      then None
      else Some (field d "ppg")
  | _ => None
  end.

(** The values of a list of options, in order. *)
Fixpoint somes {A : Type} (l : list (option A)) : list A :=
  match l with
  | [] => []
  | Some a :: l' => a :: somes l'
  | None :: l' => somes l'
  end.






(** Every sum the aggregator holds is a float. *)
Definition float_sums (d : list (value * Csv.stats)) : Prop :=
  Forall (fun kv => exists f, Csv.sum_temp (snd kv) = PFloat f) d.






End Stream.

(** * Properties *)

(** ** The rolling window *)

Section WindowFacts.
Import Py Window.











End WindowFacts.

Section WindowTheorem.
Import Py Window.



End WindowTheorem.

(** ** The stall detector *)

Section StallFacts.
Import Py Eff Window.
Variable env : Csv.environ.

Lemma get_field (d : list (string * value)) (k : string) :
  get (PDict d) k = Ok (field d k).
Proof. unfold get, field. destruct (dict_lookup k d); reflexivity. Qed.

Ltac run_detect_stall :=
  unfold Csv.detect_stall, Csv.get_rolling_window_size, Csv.get_stall_threshold,
    Csv.logger, bind, emit, lift, ret, outcome, logged, store, range;
  cbn;
  repeat match goal with
         | |- context [if ?b then _ else _] => destruct b; cbn; try reflexivity
         | |- context [match ?r with Ok _ => _ | Raise _ => _ end] =>
             destruct r; cbn; try reflexivity
         end.

(** The detector reads the window and writes to the logger, nothing else. *)
Lemma detect_stall_run (S : Type) (s : S) (d : deque) :
  Csv.detect_stall env d s
  = (outcome (Csv.detect_stall env d tt), s, logged (Csv.detect_stall env d tt)).
Proof. run_detect_stall. Qed.

Lemma detect_stall_outcome (d : deque) :
  outcome (Csv.detect_stall env d tt) =
  if len d <? Csv.SMOKER_ROLLING_WINDOW_SIZE env then Ok false
  else match range d with
       | Ok r => py_cmp OpLe r (PFloat (Csv.SMOKER_STALL_THRESHOLD_F env))
       | Raise e => Raise e
       end.
Proof. run_detect_stall. Qed.





End StallFacts.

Section StallExamples.
Import Py Eff Window Examples.


(** C8 as the specification words it: the range of the window
    [100, 100.1, 99.9, 100.05, 100.0] would be 0.2.  In binary64 the
    program obtains another float. *)
Lemma flat_window_range_is_not_two_tenths :
  range flat_window <> Ok (PFloat 0.2).
Proof.
  intros H.
  apply (f_equal (fun r => match r with
                           | Ok (PFloat x) => PrimFloat.eqb x 0.2
                           | _ => true
                           end)) in H.
  vm_compute in H. discriminate H.
Qed.

(** C8, amended.  On the full window [100, 100.1, 99.9, 100.05, 100.0] the
    program computes the range 100.1 - 99.9 = 0.19999999999998863; with the
    threshold 0.2 [detect_stall] returns true and logs that range, with the
    threshold 0.1 it returns false. *)
Theorem flat_window_stall :
  range flat_window = Ok (PFloat 0.19999999999998863) /\
  Csv.detect_stall (smoker_env 0.2) flat_window tt
  = (Ok true, tt,
     [(Csv.INFO, Csv.RollingWindowSize 5);
      (Csv.INFO, Csv.MaxStallTemperatureRange 0.2);
      (Csv.DEBUG, Csv.TemperatureRange (PFloat 0.19999999999998863) true)]) /\
  outcome (Csv.detect_stall (smoker_env 0.1) flat_window tt) = Ok false.
Proof. repeat split; vm_compute; reflexivity. Qed.

End StallExamples.

(** ** The hot-streak detector *)

Section HotStreakFacts.
Import Py Eff Window Handlers.
Variable env : Json.environ.
Variable json_loads : string -> option value.

Ltac step := cbn [app fst snd Json.logger emit ret lift raise json_error_line].

Ltac run_detect_hot :=
  unfold Json.detect_hot_streak, Json.get_hot_threshold,
    Json.logger, bind, emit, lift, ret, outcome, logged, store, mean;
  cbn;
  repeat match goal with
         | |- context [match items ?d with [] => _ | _ :: _ => _ end] =>
             destruct (items d); cbn; try reflexivity
         | |- context [match ?r with Ok _ => _ | Raise _ => _ end] =>
             destruct r; cbn; try reflexivity
         end.

Lemma detect_hot_streak_run (S : Type) (s : S) (d : deque) :
  Json.detect_hot_streak env d s
  = (outcome (Json.detect_hot_streak env d tt), s,
     logged (Json.detect_hot_streak env d tt)).
Proof. run_detect_hot. Qed.

Lemma detect_hot_streak_outcome (d : deque) :
  outcome (Json.detect_hot_streak env d tt) =
  match items d with
  | [] => Ok false
  | _ =>
      match mean d with
      | Ok avg => py_cmp OpGe avg (PFloat (Json.WNBA_HOT_THRESHOLD env))
      | Raise e => Raise e
      end
  end.
Proof. run_detect_hot. Qed.

Lemma detect_hot_streak_logs_no_alert (d : deque) (p a : value) (n : Z) :
  ~ In (Json.INFO, Json.HotStreak p a n) (logged (Json.detect_hot_streak env d tt)).
Proof.
  run_detect_hot; intros H; repeat (destruct H as [H|H]; try discriminate H); exact H.
Qed.

(** [process_message] on a record that passes the check, step by step. *)
Lemma json_process_message_accepted (message : string) (window_size : Z)
    (w : deque) (d : list (string * value)) :
  json_loads message = Some (PDict d) ->
  is_None (field d "player") || is_None (field d "ppg")
    || is_None (field d "timestamp") = false ->
  let w' := append w (field d "ppg") in
  let pre := [(Json.DEBUG, Json.RawMessage message);
              (Json.INFO, Json.Received (field d "player") (field d "team")
                            (field d "ppg") (field d "timestamp"))] in
  let seen := logged (Json.detect_hot_streak env w' tt) in
  Json.process_message env json_loads message window_size w =
  if len w' =? window_size then
    match outcome (Json.detect_hot_streak env w' tt) with
    | Ok true =>
        match py_sum (items w') with
        | Ok total =>
            match py_truediv total (PInt window_size) with
            | Ok average =>
                (Ok tt, w',
                 pre ++ seen ++
                 [(Json.INFO, Json.HotStreak (field d "player") average window_size)])
            | Raise e => (Ok tt, w', pre ++ seen ++ [json_error_line e])
            end
        | Raise e => (Ok tt, w', pre ++ seen ++ [json_error_line e])
        end
    | Ok false => (Ok tt, w', pre ++ seen)
    | Raise e => (Ok tt, w', pre ++ seen ++ [json_error_line e])
    end
  else (Ok tt, w', pre).
Proof.
  intros Hload Hvalid w' pre seen.
  unfold Json.process_message, try_except, bind.
  cbn [Json.logger emit]. rewrite Hload. cbn [ret lift].
  rewrite !get_field. cbn [fst snd]. rewrite Hvalid.
  cbn [modify read Json.logger emit]. fold w'.
  destruct (len w' =? window_size); [|reflexivity].
  rewrite detect_hot_streak_run. fold seen.
  destruct (outcome (Json.detect_hot_streak env w' tt)) as [[|]|e]; step.
  - destruct (py_sum (items w')) as [total|e]; step.
    + destruct (py_truediv total (PInt window_size)) as [average|e]; step.
      * rewrite ?app_nil_r. reflexivity.
      * destruct e; step; rewrite ?app_nil_r; reflexivity.
    + destruct e; step; rewrite ?app_nil_r; reflexivity.
  - rewrite ?app_nil_r. reflexivity.
  - destruct e; step; rewrite ?app_nil_r; reflexivity.
Qed.

Lemma json_process_message_invalid (message : string) (window_size : Z)
    (w : deque) (d : list (string * value)) :
  json_loads message = Some (PDict d) ->
  is_None (field d "player") || is_None (field d "ppg")
    || is_None (field d "timestamp") = true ->
  Json.process_message env json_loads message window_size w =
  (Ok tt, w, [(Json.DEBUG, Json.RawMessage message);
              (Json.ERROR, Json.InvalidMessageFormat message)]).
Proof.
  intros Hload Hnull.
  unfold Json.process_message, try_except, bind.
  cbn [Json.logger emit]. rewrite Hload. cbn [ret lift].
  rewrite !get_field. cbn [fst snd]. rewrite Hnull.
  reflexivity.
Qed.

Lemma json_error_line_is_no_alert (e : exn) (p a : value) (n : Z) :
  json_error_line e <> (Json.INFO, Json.HotStreak p a n).
Proof. destruct e; discriminate. Qed.

Lemma detect_hot_streak_true (d : deque) :
  outcome (Json.detect_hot_streak env d tt) = Ok true <->
  items d <> [] /\
  exists avg, mean d = Ok avg /\
              py_cmp OpGe avg (PFloat (Json.WNBA_HOT_THRESHOLD env)) = Ok true.
Proof.
  rewrite detect_hot_streak_outcome.
  destruct (items d) as [|x l] eqn:Hitems.
  - split; [discriminate|]. intros [H _]. contradiction.
  - destruct (mean d) as [avg|e].
    + split.
      * intros H. split; [discriminate|]. exists avg. split; [reflexivity|exact H].
      * intros [_ [avg' [Ha H]]]. injection Ha as <-. exact H.
    + split; [discriminate|]. intros [_ [avg' [Ha _]]]. discriminate.
Qed.

(** When the guard of [process_message] passes and the detector fires, the
    alert is logged: the average of the alert is the mean the detector just
    computed. *)
Lemma json_alert_iff (message : string) (window_size : Z)
    (w : deque) (d : list (string * value)) :
  json_loads message = Some (PDict d) ->
  is_None (field d "player") || is_None (field d "ppg")
    || is_None (field d "timestamp") = false ->
  let w' := append w (field d "ppg") in
  (exists average,
      In (Json.INFO, Json.HotStreak (field d "player") average window_size)
         (logged (Json.process_message env json_loads message window_size w))) <->
  len w' = window_size /\ outcome (Json.detect_hot_streak env w' tt) = Ok true.
Proof.
  intros Hload Hvalid w'.
  rewrite (json_process_message_accepted message window_size w d Hload Hvalid).
  fold w'.
  assert (Hpre : forall average tail,
             In (Json.INFO, Json.HotStreak (field d "player") average window_size)
                ([(Json.DEBUG, Json.RawMessage message);
                  (Json.INFO, Json.Received (field d "player") (field d "team")
                                (field d "ppg") (field d "timestamp"))]
                   ++ logged (Json.detect_hot_streak env w' tt) ++ tail) ->
             In (Json.INFO, Json.HotStreak (field d "player") average window_size) tail).
  { intros average tail H.
    apply in_app_or in H. destruct H as [H|H].
    - repeat (destruct H as [H|H]; try discriminate H). contradiction.
    - apply in_app_or in H. destruct H as [H|H]; [|exact H].
      exfalso. exact (detect_hot_streak_logs_no_alert _ _ _ _ H). }
  assert (Herr : forall average e,
             ~ In (Json.INFO, Json.HotStreak (field d "player") average window_size)
                  [json_error_line e]).
  { intros average e [H|[]]. exact (json_error_line_is_no_alert _ _ _ _ H). }
  destruct (Z.eqb_spec (len w') window_size) as [Hfull|Hpart].
  - destruct (outcome (Json.detect_hot_streak env w' tt)) as [[|]|e] eqn:Hdet.
    + apply detect_hot_streak_true in Hdet. destruct Hdet as [_ [avg [Hmean _]]].
      unfold mean in Hmean. rewrite Hfull in Hmean.
      destruct (py_sum (items w')) as [total|e]; [|discriminate Hmean].
      rewrite Hmean. split; [intros _; split; [exact Hfull|reflexivity]|].
      intros _. exists avg. unfold logged; cbn [snd].
      apply in_or_app. right. apply in_or_app. right. left. reflexivity.
    + split; [|intros [_ H]; discriminate H].
      intros [average H]. unfold logged in H at 1; cbn [snd] in H.
      rewrite <- (app_nil_r (logged (Json.detect_hot_streak env w' tt))) in H.
      apply Hpre in H. contradiction.
    + split; [|intros [_ H]; discriminate H].
      intros [average H]. unfold logged in H at 1; cbn [snd] in H.
      apply Hpre in H. exfalso. exact (Herr _ _ H).
  - split; [|intros [H _]; contradiction].
    intros [average H]. unfold logged in H; cbn [snd] in H.
    repeat (destruct H as [H|H]; try discriminate H). contradiction.
Qed.

End HotStreakFacts.

Section HotStreakTheorem.
Import Py Eff Window Examples.

(** C1 as the specification words it: the detector would return false on
    every window that is not full.  On a window of capacity 5 holding the
    single value 25.0, with the threshold 20, [detect_hot_streak] returns
    true. *)
Lemma hot_streak_fires_before_full :
  items young_window <> [] /\
  len young_window < maxlen young_window /\
  ~ is_full young_window /\
  outcome (Json.detect_hot_streak (wnba_env 20) young_window tt) = Ok true.
Proof.
  split; [discriminate|]. split; [reflexivity|]. split; [discriminate|].
  vm_compute. reflexivity.
Qed.

(** C1, amended.  [detect_hot_streak] returns true exactly when the window
    is not empty and the mean of its contents is at least the threshold; it
    does not look at the capacity.  The full-window requirement is its
    caller's: for a record that passes the check, [process_message] logs the
    hot-streak alert exactly when the window, after the push, holds
    [window_size] values and the detector returns true. *)
Theorem hot_streak_detector_and_gate (env : Json.environ)
    (json_loads : string -> option value) (message : string) (window_size : Z)
    (w : deque) (d : list (string * value))
    (Hload : json_loads message = Some (PDict d))
    (Hvalid : is_None (field d "player") || is_None (field d "ppg")
              || is_None (field d "timestamp") = false) :
  (forall (S : Type) (s : S) (dq : deque),
      outcome (Json.detect_hot_streak env dq s) = Ok true <->
      items dq <> [] /\
      exists avg, mean dq = Ok avg /\
                  py_cmp OpGe avg (PFloat (Json.WNBA_HOT_THRESHOLD env)) = Ok true) /\
  let w' := append w (field d "ppg") in
  ((exists average,
       In (Json.INFO, Json.HotStreak (field d "player") average window_size)
          (logged (Json.process_message env json_loads message window_size w))) <->
   len w' = window_size /\ outcome (Json.detect_hot_streak env w' tt) = Ok true).
Proof.
  split.
  - intros S s dq. rewrite detect_hot_streak_run. unfold outcome at 1; cbn [fst].
    apply detect_hot_streak_true.
  - apply json_alert_iff; assumption.
Qed.

Lemma hot_streak_detector_and_gate_witness :
  let env := wnba_env 20 in
  let json_loads := decodes_to (PDict wnba_fields) in
  json_loads "m" = Some (PDict wnba_fields) /\
  is_None (field wnba_fields "player") || is_None (field wnba_fields "ppg")
    || is_None (field wnba_fields "timestamp") = false /\
  ((forall (S : Type) (s : S) (dq : deque),
       outcome (Json.detect_hot_streak env dq s) = Ok true <->
       items dq <> [] /\
       exists avg, mean dq = Ok avg /\
                   py_cmp OpGe avg (PFloat (Json.WNBA_HOT_THRESHOLD env)) = Ok true) /\
   let w' := append four_games (field wnba_fields "ppg") in
   ((exists average,
        In (Json.INFO, Json.HotStreak (field wnba_fields "player") average 5)
           (logged (Json.process_message env json_loads "m" 5 four_games))) <->
    len w' = 5 /\ outcome (Json.detect_hot_streak env w' tt) = Ok true)).
Proof.
  intros env json_loads.
  split; [reflexivity|]. split; [reflexivity|].
  exact (hot_streak_detector_and_gate env json_loads "m" 5 four_games wnba_fields
           eq_refl eq_refl).
Defined.

End HotStreakTheorem.

(** ** The stall consumer, one message at a time *)

Section CsvFacts.
Import Py Eff Window Handlers.
Variable env : Csv.environ.
Variable json_loads : string -> option value.

Ltac step :=
  cbn [app fst snd Csv.logger emit ret lift raise modify read csv_error_line
       Csv.rolling_window Csv.continent_stats].

Lemma csv_process_message_invalid (message : string) (window_size : Z)
    (s : Csv.state) (d : list (string * value)) :
  json_loads message = Some (PDict d) ->
  is_None (field d "temperature") || is_None (field d "timestamp") = true ->
  Csv.process_message env json_loads message window_size s =
  (Ok tt, s, [(Csv.DEBUG, Csv.RawMessage message);
              (Csv.INFO, Csv.ProcessedJSONMessage (PDict d));
              (Csv.ERROR, Csv.InvalidMessageFormat message)]).
Proof.
  intros Hload Hnull.
  unfold Csv.process_message, try_except, bind.
  cbn [Csv.logger emit]. rewrite Hload. cbn [ret lift].
  rewrite !get_field. cbn [fst snd]. rewrite Hnull.
  reflexivity.
Qed.

(** [process_message] on a record that passes the check, step by step. *)
Lemma csv_process_message_accepted (message : string) (window_size : Z)
    (s : Csv.state) (d : list (string * value)) :
  json_loads message = Some (PDict d) ->
  is_None (field d "temperature") || is_None (field d "timestamp") = false ->
  let s1 := pushed s (field d "temperature") in
  let pre := [(Csv.DEBUG, Csv.RawMessage message);
              (Csv.INFO, Csv.ProcessedJSONMessage (PDict d))] in
  let seen := logged (Csv.detect_stall env (Csv.rolling_window s1) tt) in
  Csv.process_message env json_loads message window_size s =
  match outcome (Csv.detect_stall env (Csv.rolling_window s1) tt) with
  | Ok stalled =>
      let alert :=
        if stalled
        then [(Csv.INFO, Csv.StallDetected (field d "timestamp")
                           (field d "temperature") window_size)]
        else [] in
      match Csv.continent_aggregation (field d "continent")
              (field d "temperature") s1 with
      | (Ok _, s2, l) => (Ok tt, s2, pre ++ seen ++ alert ++ l)
      | (Raise e, s2, l) =>
          (Ok tt, s2, pre ++ seen ++ alert ++ l ++ [csv_error_line message e])
      end
  | Raise e => (Ok tt, s1, pre ++ seen ++ [csv_error_line message e])
  end.
Proof.
  intros Hload Hvalid s1 pre seen.
  unfold Csv.process_message, try_except, bind.
  cbn [Csv.logger emit]. rewrite Hload. cbn [ret lift].
  rewrite !get_field. cbn [fst snd]. rewrite Hvalid.
  cbn [modify read Csv.logger emit]. fold (pushed s (field d "temperature")).
  fold s1. rewrite detect_stall_run. fold seen.
  destruct (outcome (Csv.detect_stall env (Csv.rolling_window s1) tt))
    as [stalled|e]; step.
  - destruct stalled; step;
      destruct (Csv.continent_aggregation (field d "continent")
                  (field d "temperature") s1) as [[[[]|e] s2] l];
      step; rewrite ?app_nil_r; try reflexivity;
      destruct e; step; rewrite ?app_nil_r, <- ?app_assoc; reflexivity.
  - destruct e; step; rewrite ?app_nil_r; reflexivity.
Qed.

(** *** The aggregation block *)

Lemma find_key_some (c : value) (d : list (value * Csv.stats)) (i : nat) :
  Csv.find_key c d = Some i ->
  (i < List.length d)%nat /\
  stats_get c d = Some (snd (nth i d (PNone, Csv.default_stats))).
Proof.
  revert i; induction d as [|[k st] d IH]; intros i H; simpl in *; [discriminate|].
  destruct (py_eq k c).
  - injection H as <-. split; [lia|reflexivity].
  - destruct (Csv.find_key c d) as [j|]; [|discriminate].
    injection H as <-. destruct (IH j eq_refl) as [Hlt Hget].
    split; [lia|exact Hget].
Qed.

Lemma find_key_none (c : value) (d : list (value * Csv.stats)) :
  Csv.find_key c d = None -> stats_get c d = None.
Proof.
  induction d as [|[k st] d IH]; intros H; simpl in *; [reflexivity|].
  destruct (py_eq k c); [discriminate|].
  destruct (Csv.find_key c d); [discriminate|]. apply IH. reflexivity.
Qed.

Lemma nth_update_at (i : nat) (f : Csv.stats -> Csv.stats)
    (d : list (value * Csv.stats)) (dflt : value * Csv.stats) :
  (i < List.length d)%nat ->
  snd (nth i (Csv.update_at i f d) dflt) = f (snd (nth i d dflt)).
Proof.
  revert i; induction d as [|[k st] d IH]; intros i Hi; simpl in *; [lia|].
  destruct i as [|i]; [reflexivity|]. simpl. apply IH. lia.
Qed.

Lemma length_update_at (i : nat) (f : Csv.stats -> Csv.stats)
    (d : list (value * Csv.stats)) :
  List.length (Csv.update_at i f d) = List.length d.
Proof.
  revert i; induction d as [|[k st] d IH]; intros i; simpl; [reflexivity|].
  destruct i as [|i]; simpl; [reflexivity|]. rewrite IH. reflexivity.
Qed.

Lemma update_at_twice (i : nat) (f g : Csv.stats -> Csv.stats)
    (d : list (value * Csv.stats)) :
  Csv.update_at i g (Csv.update_at i f d) = Csv.update_at i (fun st => g (f st)) d.
Proof.
  revert i; induction d as [|[k st] d IH]; intros i; simpl; [reflexivity|].
  destruct i as [|i]; simpl; [reflexivity|]. rewrite IH. reflexivity.
Qed.

Lemma update_at_end (f : Csv.stats -> Csv.stats) (d : list (value * Csv.stats))
    (k : value) (st : Csv.stats) :
  Csv.update_at (List.length d) f (d ++ [(k, st)]) = d ++ [(k, f st)].
Proof.
  induction d as [|[k' st'] d IH]; simpl; [reflexivity|]. rewrite IH. reflexivity.
Qed.

Lemma stats_get_update_at (c : value) (i : nat) (f : Csv.stats -> Csv.stats)
    (d : list (value * Csv.stats)) :
  Csv.find_key c d = Some i ->
  stats_get c (Csv.update_at i f d) = option_map f (stats_get c d).
Proof.
  revert i; induction d as [|[k st] d IH]; intros i H; simpl in *; [discriminate|].
  destruct (py_eq k c) eqn:Hk.
  - injection H as <-. simpl. rewrite Hk. reflexivity.
  - destruct (Csv.find_key c d) as [j|]; [|discriminate].
    injection H as <-. simpl. rewrite Hk. apply IH. reflexivity.
Qed.

Lemma stats_get_end (c k : value) (st : Csv.stats) (d : list (value * Csv.stats)) :
  stats_get c d = None ->
  stats_get c (d ++ [(k, st)]) = if py_eq k c then Some st else None.
Proof.
  induction d as [|[k' st'] d IH]; intros H; simpl in *; [reflexivity|].
  destruct (py_eq k' c); [discriminate|]. apply IH. exact H.
Qed.

(** The slot the lookup returns is in range and holds what the key stands
    at. *)
Lemma looked_up_slot (c : value) (d : list (value * Csv.stats)) :
  let '(i, d1) := looked_up c d in
  (i < List.length d1)%nat /\
  snd (nth i d1 (PNone, Csv.default_stats)) = standing c d.
Proof.
  unfold looked_up, standing.
  destruct (Csv.find_key c d) as [i|] eqn:Hfind.
  - destruct (find_key_some c d i Hfind) as [Hlt Hget]. rewrite Hget.
    split; [exact Hlt|reflexivity].
  - rewrite (find_key_none c d Hfind). split.
    + rewrite length_app; simpl; lia.
    + rewrite app_nth2 by lia. rewrite Nat.sub_diag. reflexivity.
Qed.

(** The aggregation block, step by step: the lookup, the count, the sum,
    the average. *)
Lemma continent_aggregation_run (c t : value) (s : Csv.state) :
  Csv.continent_aggregation c t s =
  if truthy c then
    if hashable c then
      let '(i, d1) := looked_up c (Csv.continent_stats s) in
      let old := standing c (Csv.continent_stats s) in
      let d2 := Csv.update_at i
                  (fun st => {| Csv.count := Csv.count st + 1;
                                Csv.sum_temp := Csv.sum_temp st |}) d1 in
      match py_add (Csv.sum_temp old) t with
      | Ok total =>
          let d3 := Csv.update_at i
                      (fun st => {| Csv.count := Csv.count st + 1;
                                    Csv.sum_temp := total |}) d1 in
          match py_truediv total (PInt (Csv.count old + 1)) with
          | Ok avg =>
              (Ok tt, with_stats s d3,
               [(Csv.INFO, Csv.ContinentAvg c avg (Csv.count old + 1))])
          | Raise e => (Raise e, with_stats s d3, [])
          end
      | Raise e => (Raise e, with_stats s d2, [])
      end
    else (Raise TypeError, s, [])
  else (Ok tt, s, []).
Proof.
  unfold Csv.continent_aggregation.
  destruct (truthy c); [|reflexivity].
  unfold Csv.continent_stats_getitem.
  destruct (hashable c); [|reflexivity].
  assert (Hslot := looked_up_slot c (Csv.continent_stats s)).
  unfold looked_up in *.
  destruct (Csv.find_key c (Csv.continent_stats s)) as [i|] eqn:Hfind;
    destruct Hslot as [Hlt Hold];
    unfold Csv.set_continent_stats, Csv.stats_at; unfold bind; step;
    rewrite ?Hfind; step;
    rewrite !nth_update_at by exact Hlt;
    rewrite Hold; cbn [Csv.count Csv.sum_temp];
    (destruct (py_add (Csv.sum_temp (standing c (Csv.continent_stats s))) t)
       as [total|e]; step; [|reflexivity]);
    rewrite !update_at_twice;
    rewrite !nth_update_at by exact Hlt;
    rewrite Hold; cbn [Csv.count Csv.sum_temp];
    (destruct (py_truediv total
                 (PInt (Csv.count (standing c (Csv.continent_stats s)) + 1)))
       as [avg|e]; step; reflexivity).
Qed.

Lemma detect_stall_lines (d : deque) :
  Forall (fun l => is_detector_line l = true)
         (logged (Csv.detect_stall env d tt)).
Proof.
  unfold Csv.detect_stall, Csv.get_rolling_window_size, Csv.get_stall_threshold,
    Csv.logger, bind, emit, lift, ret, logged.
  cbn.
  repeat match goal with
         | |- context [if ?b then _ else _] => destruct b; cbn
         | |- context [match ?r with Ok _ => _ | Raise _ => _ end] =>
             destruct r; cbn
         end;
    repeat constructor.
Qed.

Lemma detect_stall_logs_window_size (d : deque) :
  In (Csv.INFO, Csv.RollingWindowSize (Csv.SMOKER_ROLLING_WINDOW_SIZE env))
     (logged (Csv.detect_stall env d tt)).
Proof.
  unfold Csv.detect_stall, Csv.get_rolling_window_size, Csv.get_stall_threshold,
    Csv.logger, bind, emit, lift, ret, logged.
  cbn.
  repeat match goal with
         | |- context [if ?b then _ else _] => destruct b; cbn
         | |- context [match ?r with Ok _ => _ | Raise _ => _ end] =>
             destruct r; cbn
         end;
    left; reflexivity.
Qed.

Lemma continent_aggregation_window (c t : value) (s : Csv.state) :
  Csv.rolling_window (store (Csv.continent_aggregation c t s)) = Csv.rolling_window s.
Proof.
  rewrite continent_aggregation_run.
  destruct (truthy c); [|reflexivity].
  destruct (hashable c); [|reflexivity].
  destruct (looked_up c (Csv.continent_stats s)) as [i d1].
  cbv zeta.
  destruct (py_add _ t) as [total|e]; [|reflexivity].
  destruct (py_truediv total _) as [avg|e]; reflexivity.
Qed.

Lemma continent_aggregation_lines (c t : value) (s : Csv.state) :
  Forall (fun l => is_average_line l = true)
         (logged (Csv.continent_aggregation c t s)).
Proof.
  rewrite continent_aggregation_run.
  destruct (truthy c); [|constructor].
  destruct (hashable c); [|constructor].
  destruct (looked_up c (Csv.continent_stats s)) as [i d1].
  cbv zeta.
  destruct (py_add _ t) as [total|e]; [|constructor].
  destruct (py_truediv total _) as [avg|e]; repeat constructor.
Qed.

(** Where a record of the log of an accepted message can come from. *)
Lemma csv_accepted_log (message : string) (window_size : Z)
    (s : Csv.state) (d : list (string * value)) (l : Csv.log_line) :
  json_loads message = Some (PDict d) ->
  is_None (field d "temperature") || is_None (field d "timestamp") = false ->
  In l (logged (Csv.process_message env json_loads message window_size s)) ->
  l = (Csv.DEBUG, Csv.RawMessage message) \/
  l = (Csv.INFO, Csv.ProcessedJSONMessage (PDict d)) \/
  is_detector_line l = true \/
  (l = (Csv.INFO, Csv.StallDetected (field d "timestamp") (field d "temperature")
                    window_size) /\
   outcome (Csv.detect_stall env
              (Csv.rolling_window (pushed s (field d "temperature"))) tt) = Ok true) \/
  is_average_line l = true \/
  exists e, l = csv_error_line message e.
Proof.
  intros Hload Hvalid.
  rewrite (csv_process_message_accepted message window_size s d Hload Hvalid).
  assert (Hseen := detect_stall_lines
                     (Csv.rolling_window (pushed s (field d "temperature")))).
  assert (Hagg := continent_aggregation_lines (field d "continent")
                    (field d "temperature") (pushed s (field d "temperature"))).
  rewrite Forall_forall in Hseen, Hagg.
  destruct (outcome (Csv.detect_stall env _ tt)) as [stalled|e].
  - destruct (Csv.continent_aggregation _ _ _) as [[[[]|e] s2] la];
      unfold logged in Hagg |- * at 1; cbn [snd] in Hagg |- *; intros H;
      repeat (apply in_app_or in H; destruct H as [H|H]);
      try (destruct H as [H|[H|[]]]; subst l; tauto);
      try (right; right; left; apply Hseen; exact H);
      try (right; right; right; right; left; apply Hagg; exact H);
      try (destruct stalled; [destruct H as [H|[]]; subst l; tauto|destruct H]);
      try (destruct H as [H|[]]; subst l;
           right; right; right; right; right; exists e; reflexivity).
  - unfold logged at 1; cbn [snd]; intros H;
      repeat (apply in_app_or in H; destruct H as [H|H]).
    + destruct H as [H|[H|[]]]; subst l; tauto.
    + right; right; left; apply Hseen; exact H.
    + destruct H as [H|[]]; subst l.
      right; right; right; right; right; exists e; reflexivity.
Qed.

(** An accepted record is appended to the window, whatever happens next,
    and what the detector logs is in the log. *)
Lemma csv_accepted_window (message : string) (window_size : Z)
    (s : Csv.state) (d : list (string * value)) :
  json_loads message = Some (PDict d) ->
  is_None (field d "temperature") || is_None (field d "timestamp") = false ->
  let r := Csv.process_message env json_loads message window_size s in
  Csv.rolling_window (store r)
  = append (Csv.rolling_window s) (field d "temperature") /\
  outcome r = Ok tt /\
  forall l,
    In l (logged (Csv.detect_stall env
                    (Csv.rolling_window (pushed s (field d "temperature"))) tt)) ->
    In l (logged r).
Proof.
  intros Hload Hvalid r. subst r.
  rewrite (csv_process_message_accepted message window_size s d Hload Hvalid).
  assert (Hwin := continent_aggregation_window (field d "continent")
                    (field d "temperature") (pushed s (field d "temperature"))).
  destruct (outcome (Csv.detect_stall env _ tt)) as [stalled|e].
  - destruct (Csv.continent_aggregation _ _ _) as [[[[]|e] s2] la];
      unfold store in Hwin |- *; cbn [fst snd] in Hwin |- *;
      (split; [exact Hwin|]); (split; [reflexivity|]);
      intros l Hl; unfold logged at 1; cbn [snd];
      apply in_or_app; right; apply in_or_app; left; exact Hl.
  - split; [reflexivity|]. split; [reflexivity|].
    intros l Hl; unfold logged at 1; cbn [snd];
      apply in_or_app; right; apply in_or_app; left; exact Hl.
Qed.

End CsvFacts.

(** ** Validation *)

Section Validation.
Import Py Eff Window Handlers Examples.

Lemma is_None_true (v : value) : is_None v = true <-> v = PNone.
Proof. destruct v; simpl; split; intros H; try discriminate H; reflexivity. Qed.

Lemma is_None_false (v : value) : is_None v = false <-> v <> PNone.
Proof.
  destruct v; simpl; split; intros H; try discriminate; try reflexivity;
    try (exfalso; apply H; reflexivity).
Qed.

(** C4.  A decoded record whose numeric value or whose timestamp is missing
    or null is reported as invalid, and processing it leaves the store as it
    was: the window and every item of [continent_stats] in the stall
    consumer, the window in the hot-streak consumer. *)
Theorem invalid_record_mutates_nothing (json_loads : string -> option value)
    (message : string) (d : list (string * value))
    (Hload : json_loads message = Some (PDict d)) :
  (field d "temperature" = PNone \/ field d "timestamp" = PNone ->
   forall (env : Csv.environ) (window_size : Z) (s : Csv.state),
     let r := Csv.process_message env json_loads message window_size s in
     store r = s /\ outcome r = Ok tt /\
     In (Csv.ERROR, Csv.InvalidMessageFormat message) (logged r)) /\
  (field d "ppg" = PNone \/ field d "timestamp" = PNone ->
   forall (env : Json.environ) (window_size : Z) (w : deque),
     let r := Json.process_message env json_loads message window_size w in
     store r = w /\ outcome r = Ok tt /\
     In (Json.ERROR, Json.InvalidMessageFormat message) (logged r)).
Proof.
  split.
  - intros Hnull env window_size s r. subst r.
    rewrite (csv_process_message_invalid env json_loads message window_size s d Hload).
    + repeat split. right. right. left. reflexivity.
    + apply orb_true_iff.
      destruct Hnull as [H|H]; [left|right]; apply is_None_true; exact H.
  - intros Hnull env window_size w r. subst r.
    rewrite (json_process_message_invalid env json_loads message window_size w d Hload).
    + repeat split. right. left. reflexivity.
    + destruct Hnull as [H|H]; rewrite H; simpl; rewrite ?orb_true_r; reflexivity.
Qed.

Lemma invalid_record_mutates_nothing_witness :
  let json_loads := decodes_to (PDict smoker_fields_null) in
  json_loads "m" = Some (PDict smoker_fields_null) /\
  (let s := {| Csv.rolling_window := flat_window; Csv.continent_stats := [] |} in
   let r := Csv.process_message (smoker_env 0.2) json_loads "m" 5 s in
   store r = s /\ outcome r = Ok tt /\
   In (Csv.ERROR, Csv.InvalidMessageFormat "m") (logged r)) /\
  (let r := Json.process_message (wnba_env 20) json_loads "m" 5 four_games in
   store r = four_games /\ outcome r = Ok tt /\
   In (Json.ERROR, Json.InvalidMessageFormat "m") (logged r)).
Proof.
  intros json_loads.
  split; [reflexivity|].
  destruct (invalid_record_mutates_nothing json_loads "m" smoker_fields_null eq_refl)
    as [Hcsv Hjson].
  split.
  - apply Hcsv. left. reflexivity.
  - apply Hjson. left. reflexivity.
Defined.

(** C5 as the specification words it: a value and a timestamp would be
    enough for a record to be accepted.  The hot-streak consumer rejects a
    record that has both but no player, and leaves the window as it was. *)
Lemma record_without_player_is_rejected :
  let d := wnba_fields_no_player in
  let r := Json.process_message (wnba_env 20) (decodes_to (PDict d)) "m" 5 four_games in
  field d "ppg" <> PNone /\ field d "timestamp" <> PNone /\
  store r = four_games /\
  In (Json.ERROR, Json.InvalidMessageFormat "m") (logged r).
Proof.
  cbv zeta. split; [discriminate|]. split; [discriminate|].
  split; [reflexivity|]. right. left. reflexivity.
Qed.

(** C5, amended.  In the stall consumer a record with a non-null
    temperature and a non-null timestamp is accepted whatever else it holds:
    the temperature is appended to the window, the detector runs, and no
    invalid-format error is logged.  The hot-streak consumer also requires
    the player: with a non-null player, ppg and timestamp the ppg is appended
    to the window; with a null or missing player the record is rejected and
    the window is left as it was. *)
Theorem accepted_records (json_loads : string -> option value)
    (message : string) (d : list (string * value))
    (Hload : json_loads message = Some (PDict d))
    (Htime : field d "timestamp" <> PNone) :
  (field d "temperature" <> PNone ->
   forall (env : Csv.environ) (window_size : Z) (s : Csv.state),
     let r := Csv.process_message env json_loads message window_size s in
     Csv.rolling_window (store r)
     = append (Csv.rolling_window s) (field d "temperature") /\
     In (Csv.INFO, Csv.RollingWindowSize (Csv.SMOKER_ROLLING_WINDOW_SIZE env))
        (logged r) /\
     ~ In (Csv.ERROR, Csv.InvalidMessageFormat message) (logged r)) /\
  (field d "ppg" <> PNone ->
   forall (env : Json.environ) (window_size : Z) (w : deque),
     let r := Json.process_message env json_loads message window_size w in
     (field d "player" <> PNone -> store r = append w (field d "ppg")) /\
     (field d "player" = PNone ->
      store r = w /\ In (Json.ERROR, Json.InvalidMessageFormat message) (logged r))).
Proof.
  apply is_None_false in Htime.
  split.
  - intros Htemp env window_size s r. subst r.
    apply is_None_false in Htemp.
    assert (Hvalid : is_None (field d "temperature")
                     || is_None (field d "timestamp") = false)
      by (rewrite Htemp, Htime; reflexivity).
    destruct (csv_accepted_window env json_loads message window_size s d Hload Hvalid)
      as [Hwin [_ Hseen]].
    split; [exact Hwin|]. split.
    + apply Hseen. apply detect_stall_logs_window_size.
    + intros Hin.
      apply (csv_accepted_log env json_loads message window_size s d _ Hload Hvalid)
        in Hin.
      destruct Hin as [H|[H|[H|[[H _]|[H|[e H]]]]]]; try discriminate H.
      destruct e; discriminate H.
  - intros Hppg env window_size w r. subst r.
    apply is_None_false in Hppg.
    split.
    + intros Hplayer. apply is_None_false in Hplayer.
      rewrite (json_process_message_accepted env json_loads message window_size w d Hload)
        by (rewrite Hplayer, Hppg, Htime; reflexivity).
      destruct (len _ =? window_size); [|reflexivity].
      destruct (outcome (Json.detect_hot_streak env _ tt)) as [[|]|e];
        try reflexivity.
      destruct (py_sum _) as [total|e]; [|reflexivity].
      destruct (py_truediv total _); reflexivity.
    + intros Hplayer.
      rewrite (json_process_message_invalid env json_loads message window_size w d Hload)
        by (rewrite Hplayer; reflexivity).
      split; [reflexivity|]. right. left. reflexivity.
Qed.

Lemma accepted_records_witness :
  let json_loads := decodes_to (PDict smoker_fields) in
  json_loads "m" = Some (PDict smoker_fields) /\
  field smoker_fields "timestamp" <> PNone /\
  field smoker_fields "temperature" <> PNone /\
  let s := {| Csv.rolling_window := flat_window; Csv.continent_stats := [] |} in
  let r := Csv.process_message (smoker_env 0.2) json_loads "m" 5 s in
  Csv.rolling_window (store r)
  = append (Csv.rolling_window s) (field smoker_fields "temperature") /\
  In (Csv.INFO, Csv.RollingWindowSize
                  (Csv.SMOKER_ROLLING_WINDOW_SIZE (smoker_env 0.2))) (logged r) /\
  ~ In (Csv.ERROR, Csv.InvalidMessageFormat "m") (logged r).
Proof.
  intros json_loads.
  split; [reflexivity|]. split; [discriminate|]. split; [discriminate|].
  intros s.
  apply (proj1 (accepted_records json_loads "m" smoker_fields eq_refl
                  ltac:(discriminate))).
  discriminate.
Defined.

End Validation.

(** ** The keyed aggregator *)

Section Aggregator.
Import Py Eff Window Handlers Examples.

Lemma py_eq_str (key : value) (k : string) :
  py_eq key (PStr k) = true -> key = PStr k.
Proof.
  destruct key; simpl; try discriminate.
  intros H. apply String.eqb_eq in H. subst. reflexivity.
Qed.

Lemma stats_get_update_other (c c' : value) (i : nat) (f : Csv.stats -> Csv.stats)
    (d : list (value * Csv.stats)) :
  Csv.find_key c d = Some i ->
  (forall key, py_eq key c = true -> py_eq key c' = false) ->
  stats_get c' (Csv.update_at i f d) = stats_get c' d.
Proof.
  intros Hfind Hother. revert i Hfind.
  induction d as [|[key st] d IH]; intros i Hfind; simpl in *; [discriminate|].
  destruct (py_eq key c) eqn:Hkey.
  - injection Hfind as <-. simpl. rewrite (Hother key Hkey). reflexivity.
  - destruct (Csv.find_key c d) as [j|]; [|discriminate].
    injection Hfind as <-. simpl.
    destruct (py_eq key c'); [reflexivity|]. apply IH. reflexivity.
Qed.

Lemma stats_get_end_other (c' k : value) (st : Csv.stats)
    (d : list (value * Csv.stats)) :
  py_eq k c' = false -> stats_get c' (d ++ [(k, st)]) = stats_get c' d.
Proof.
  intros Hk. induction d as [|[key st'] d IH]; simpl.
  - rewrite Hk. reflexivity.
  - destruct (py_eq key c'); [reflexivity|]. exact IH.
Qed.

(** C6.  Recording a reading [v] under a key [k]: a key never seen stands at
    count 0 and sum 0.0; the item of [k] ends with its count one higher and
    with [v] added to its sum, and the items of the other keys are left as
    they were.  Two readings 100 and 110 for Asia, from the empty aggregator,
    end with count 2, sum 210.0, and the logged average 105.0. *)
Theorem record_updates_count_and_sum (k : string) (v total : value) (s : Csv.state)
    (Hk : k <> "")
    (Hadd : py_add (Csv.sum_temp (standing (PStr k) (Csv.continent_stats s))) v
            = Ok total) :
  let old := standing (PStr k) (Csv.continent_stats s) in
  let r := Csv.continent_aggregation (PStr k) v s in
  (stats_get (PStr k) (Csv.continent_stats s) = None ->
   old = {| Csv.count := 0; Csv.sum_temp := PFloat 0 |}) /\
  stats_get (PStr k) (Csv.continent_stats (store r))
  = Some {| Csv.count := Csv.count old + 1; Csv.sum_temp := total |} /\
  (forall k', k' <> k ->
     stats_get (PStr k') (Csv.continent_stats (store r))
     = stats_get (PStr k') (Csv.continent_stats s)) /\
  (snd (Csv.main (smoker_env 0.2) asia_decoder asia_messages)
   = Ok {| Csv.rolling_window := {| maxlen := 5; items := [PInt 100; PInt 110] |};
           Csv.continent_stats :=
             [(PStr "Asia", {| Csv.count := 2; Csv.sum_temp := PFloat 210 |})] |} /\
   In (Csv.INFO, Csv.ContinentAvg (PStr "Asia") (PFloat 105) 2)
      (fst (Csv.main (smoker_env 0.2) asia_decoder asia_messages))).
Proof.
  intros old r.
  split; [|split; [|split]].
  - unfold old, standing. intros ->. reflexivity.
  - subst r. rewrite continent_aggregation_run.
    assert (Htruthy : truthy (PStr k) = true).
    { simpl. destruct (String.eqb_spec k ""); [contradiction|reflexivity]. }
    rewrite Htruthy. cbn [hashable].
    unfold looked_up. fold old in Hadd |- *.
    destruct (Csv.find_key (PStr k) (Csv.continent_stats s)) as [i|] eqn:Hfind;
      cbv zeta; rewrite Hadd;
      destruct (py_truediv total _) as [avg|e];
      unfold store; cbn [fst snd with_stats Csv.continent_stats].
    1,2: rewrite (stats_get_update_at _ _ _ _ Hfind);
         destruct (find_key_some _ _ _ Hfind) as [_ Hget];
         unfold old, standing; rewrite Hget; reflexivity.
    1,2: rewrite update_at_end,
           (stats_get_end _ _ _ _ (find_key_none _ _ Hfind));
         cbn [py_eq]; rewrite String.eqb_refl;
         unfold old, standing; rewrite (find_key_none _ _ Hfind); reflexivity.
  - intros k' Hk'. subst r. rewrite continent_aggregation_run.
    assert (Htruthy : truthy (PStr k) = true).
    { simpl. destruct (String.eqb_spec k ""); [contradiction|reflexivity]. }
    assert (Hne : py_eq (PStr k) (PStr k') = false).
    { simpl. apply String.eqb_neq. congruence. }
    assert (Hother : forall key, py_eq key (PStr k) = true ->
                                 py_eq key (PStr k') = false).
    { intros key Hkey. apply py_eq_str in Hkey. subst key. exact Hne. }
    rewrite Htruthy. cbn [hashable].
    unfold looked_up. fold old in Hadd |- *.
    destruct (Csv.find_key (PStr k) (Csv.continent_stats s)) as [i|] eqn:Hfind;
      cbv zeta; rewrite Hadd;
      destruct (py_truediv total _) as [avg|e];
      unfold store; cbn [fst snd with_stats Csv.continent_stats].
    1,2: apply (stats_get_update_other _ _ _ _ _ Hfind Hother).
    1,2: rewrite update_at_end; apply stats_get_end_other; exact Hne.
  - split; [vm_compute; reflexivity|].
    vm_compute. tauto.
Qed.

Lemma record_updates_count_and_sum_witness :
  let s := {| Csv.rolling_window := flat_window; Csv.continent_stats := [] |} in
  "Asia" <> "" /\
  py_add (Csv.sum_temp (standing (PStr "Asia") (Csv.continent_stats s))) (PInt 100)
  = Ok (PFloat 100) /\
  stats_get (PStr "Asia")
    (Csv.continent_stats (store (Csv.continent_aggregation (PStr "Asia") (PInt 100) s)))
  = Some {| Csv.count := Csv.count (standing (PStr "Asia") (Csv.continent_stats s)) + 1;
            Csv.sum_temp := PFloat 100 |}.
Proof.
  intros s.
  split; [discriminate|]. split; [vm_compute; reflexivity|].
  exact (proj1 (proj2 (record_updates_count_and_sum "Asia" (PInt 100) (PFloat 100) s
                         ltac:(discriminate) ltac:(vm_compute; reflexivity)))).
Defined.

End Aggregator.

(** ** Alerts *)

Section Alerts.
Import Py Eff Window Handlers Examples.



End Alerts.

(** ** No division by zero *)

Section DivisionSafety.
Import Py Eff Window Handlers.

Lemma float_of_int_raises (z : Z) (e : exn) :
  float_of_int z = Raise e -> e = OverflowError.
Proof.
  unfold float_of_int. destruct (is_infinity _); [|discriminate].
  intros H; injection H as <-; reflexivity.
Qed.

Lemma py_cmp_raises : forall (a : value) (op : cmpop) (b : value) (e : exn),
  py_cmp op a b = Raise e -> e = TypeError.
Proof.
  fix IH 1. intros a op b e.
  destruct a as [|x|x|x|x|l|x]; destruct b as [|y|y|y|y|m|y]; simpl;
    try (intros H; first [discriminate H | injection H as <-; reflexivity]).
  revert m. induction l as [|x l IHl]; intros [|y m]; try discriminate.
  destruct (py_eq x y); [apply IHl|apply IH].
Qed.

Lemma extremum_raises (op : cmpop) (rest : list value) (best : value) (e : exn) :
  extremum op best rest = Raise e -> e = TypeError.
Proof.
  revert best; induction rest as [|item rest IH]; intros best; simpl; [discriminate|].
  destruct (py_cmp op item best) as [[|]|e'] eqn:Hcmp; try apply IH.
  intros H; injection H as <-. exact (py_cmp_raises _ _ _ _ Hcmp).
Qed.

Lemma py_sub_raises (a b : value) (e : exn) :
  py_sub a b = Raise e -> e <> ZeroDivisionError.
Proof.
  unfold py_sub.
  destruct (as_num a) as [[x|f]|]; destruct (as_num b) as [[y|g]|];
    try discriminate; try (intros H; injection H as <-; discriminate).
  - destruct (float_of_int x) eqn:Hf; [discriminate|].
    intros H; injection H as <-. rewrite (float_of_int_raises _ _ Hf). discriminate.
  - destruct (float_of_int y) eqn:Hf; [discriminate|].
    intros H; injection H as <-. rewrite (float_of_int_raises _ _ Hf). discriminate.
Qed.

Lemma py_add_raises (a b : value) (e : exn) :
  py_add a b = Raise e -> e <> ZeroDivisionError.
Proof.
  unfold py_add.
  destruct (as_num a) as [[x|f]|]; destruct (as_num b) as [[y|g]|];
    try discriminate;
    try (destruct a; destruct b; try discriminate;
         intros H; injection H as <-; discriminate).
  - destruct (float_of_int x) eqn:Hf; [discriminate|].
    intros H; injection H as <-. rewrite (float_of_int_raises _ _ Hf). discriminate.
  - destruct (float_of_int y) eqn:Hf; [discriminate|].
    intros H; injection H as <-. rewrite (float_of_int_raises _ _ Hf). discriminate.
Qed.

(** Dividing by a non-zero int never raises [ZeroDivisionError]. *)
Lemma py_truediv_by_count (a : value) (n : Z) (e : exn) :
  n <> 0 -> py_truediv a (PInt n) = Raise e -> e <> ZeroDivisionError.
Proof.
  intros Hn. unfold py_truediv. cbn [as_num].
  destruct (as_num a) as [[x|f]|].
  - unfold int_true_divide.
    destruct (Z.eqb_spec n 0) as [|_]; [contradiction|].
    destruct (x =? 0); [discriminate|].
    cbv zeta. destruct (is_infinity _); [|discriminate].
    intros H; injection H as <-. discriminate.
  - destruct (Z.eqb_spec n 0) as [|_]; [contradiction|].
    destruct (float_of_int n) eqn:Hf; [discriminate|].
    intros H; injection H as <-. rewrite (float_of_int_raises _ _ Hf). discriminate.
  - intros H; injection H as <-. discriminate.
Qed.

Section Run.
Variable env : Csv.environ.
Variable json_loads : string -> option value.

Ltac step :=
  cbn [app fst snd Csv.logger emit ret lift raise modify read csv_error_line
       Csv.rolling_window Csv.continent_stats].

Lemma detect_stall_raises (d : deque) (e : exn) :
  outcome (Csv.detect_stall env d tt) = Raise e -> e <> ZeroDivisionError.
Proof.
  rewrite detect_stall_outcome.
  destruct (len d <? _); [discriminate|].
  unfold range, py_max, py_min.
  destruct (items d) as [|x rest].
  - intros H; injection H as <-. discriminate.
  - destruct (extremum OpGt x rest) as [hi|e'] eqn:Hhi.
    + destruct (extremum OpLt x rest) as [lo|e'] eqn:Hlo.
      * destruct (py_sub hi lo) as [r|e'] eqn:Hsub.
        -- intros H. rewrite (py_cmp_raises _ _ _ _ H). discriminate.
        -- intros H; injection H as <-. exact (py_sub_raises _ _ _ Hsub).
      * intros H; injection H as <-.
        rewrite (extremum_raises _ _ _ _ Hlo). discriminate.
    + intros H; injection H as <-.
      rewrite (extremum_raises _ _ _ _ Hhi). discriminate.
Qed.

Lemma csv_error_line_safe (message : string) (e : exn) :
  e <> ZeroDivisionError -> division_safe (csv_error_line message e).
Proof. destruct e; simpl; intros H; try exact I. apply H; reflexivity. Qed.

Lemma detector_line_safe (l : Csv.log_line) :
  is_detector_line l = true -> division_safe l.
Proof. destruct l as [[] []]; simpl; intros H; try discriminate H; exact I. Qed.

Lemma stats_get_in (c : value) (d : list (value * Csv.stats)) (st : Csv.stats) :
  stats_get c d = Some st -> exists k, In (k, st) d.
Proof.
  induction d as [|[k st'] d IH]; simpl; [discriminate|].
  destruct (py_eq k c).
  - intros H; injection H as <-. exists k. left. reflexivity.
  - intros H. destruct (IH H) as [k' Hin]. exists k'. right. exact Hin.
Qed.

Lemma standing_count (c : value) (d : list (value * Csv.stats)) :
  counted d -> 0 <= Csv.count (standing c d).
Proof.
  intros Hd. unfold standing.
  destruct (stats_get c d) as [st|] eqn:Hget; [|simpl; lia].
  destruct (stats_get_in _ _ _ Hget) as [k Hin].
  unfold counted in Hd. rewrite Forall_forall in Hd.
  specialize (Hd _ Hin). simpl in Hd. lia.
Qed.

Lemma counted_update_at (i : nat) (f : Csv.stats -> Csv.stats)
    (d : list (value * Csv.stats)) :
  (forall st, 1 <= Csv.count st -> 1 <= Csv.count (f st)) ->
  counted d -> counted (Csv.update_at i f d).
Proof.
  intros Hf. unfold counted. revert i.
  induction d as [|[k st] d IH]; intros i Hd; simpl; [constructor|].
  inversion Hd as [|? ? Hst Hrest]; subst.
  destruct i as [|i]; constructor; simpl in *; auto.
Qed.

Lemma counted_looked_up (c : value) (d : list (value * Csv.stats))
    (f : Csv.stats -> Csv.stats) :
  (forall st, 0 <= Csv.count st -> 1 <= Csv.count (f st)) ->
  counted d ->
  counted (Csv.update_at (fst (looked_up c d)) f (snd (looked_up c d))).
Proof.
  intros Hf Hd. unfold looked_up.
  destruct (Csv.find_key c d) as [i|]; cbn [fst snd].
  - apply counted_update_at; [|exact Hd]. intros st Hst. apply Hf. lia.
  - rewrite update_at_end. unfold counted. apply Forall_app. split; [exact Hd|].
    constructor; [|constructor]. simpl. apply Hf. simpl. lia.
Qed.

(** The aggregation block keeps every count at one or more, divides by a
    count that is at least one, and raises no [ZeroDivisionError]. *)
Lemma continent_aggregation_safe (c t : value) (s : Csv.state) :
  counted (Csv.continent_stats s) ->
  let r := Csv.continent_aggregation c t s in
  counted (Csv.continent_stats (store r)) /\
  Forall division_safe (logged r) /\
  (forall e, outcome r = Raise e -> e <> ZeroDivisionError).
Proof.
  intros Hd r. subst r. rewrite continent_aggregation_run.
  destruct (truthy c);
    [|split; [exact Hd|split; [constructor|discriminate]]].
  destruct (hashable c);
    [|split; [exact Hd|split; [constructor|]];
      intros e H; injection H as <-; discriminate].
  assert (Hold := standing_count c _ Hd).
  assert (H2 := counted_looked_up c (Csv.continent_stats s)
                  (fun st => {| Csv.count := Csv.count st + 1;
                                Csv.sum_temp := Csv.sum_temp st |})
                  ltac:(simpl; intros; lia) Hd).
  destruct (looked_up c (Csv.continent_stats s)) as [i d1] eqn:Hlook.
  cbv zeta. cbn [fst snd] in H2.
  destruct (py_add _ t) as [total|e] eqn:Hadd.
  - assert (H3 := counted_looked_up c (Csv.continent_stats s)
                    (fun st => {| Csv.count := Csv.count st + 1;
                                  Csv.sum_temp := total |})
                    ltac:(simpl; intros; lia) Hd).
    rewrite Hlook in H3. cbn [fst snd] in H3.
    destruct (py_truediv total _) as [avg|e] eqn:Hdiv;
      unfold store, logged, outcome; cbn [fst snd with_stats Csv.continent_stats].
    + split; [exact H3|]. split; [|discriminate].
      constructor; [|constructor]. simpl. lia.
    + split; [exact H3|]. split; [constructor|].
      intros e' H; injection H as <-.
      eapply py_truediv_by_count; [|exact Hdiv]. lia.
  - unfold store, logged, outcome; cbn [fst snd with_stats Csv.continent_stats].
    split; [exact H2|]. split; [constructor|].
    intros e' H; injection H as <-. exact (py_add_raises _ _ _ Hadd).
Qed.

Lemma csv_process_message_undecodable (message : string) (window_size : Z)
    (s : Csv.state) :
  json_loads message = None ->
  Csv.process_message env json_loads message window_size s =
  (Ok tt, s, [(Csv.DEBUG, Csv.RawMessage message);
              (Csv.ERROR, Csv.JSONDecodingError message)]).
Proof.
  intros Hload. unfold Csv.process_message, try_except, bind.
  cbn [Csv.logger emit]. rewrite Hload. reflexivity.
Qed.

Lemma csv_process_message_not_a_dict (message : string) (window_size : Z)
    (s : Csv.state) (v : value) :
  json_loads message = Some v ->
  (forall d, v <> PDict d) ->
  Csv.process_message env json_loads message window_size s =
  (Ok tt, s, [(Csv.DEBUG, Csv.RawMessage message);
              (Csv.ERROR, Csv.ErrorProcessingMessage message AttributeError)]).
Proof.
  intros Hload Hv. unfold Csv.process_message, try_except, bind.
  cbn [Csv.logger emit]. rewrite Hload.
  destruct v; try reflexivity. exfalso. exact (Hv _ eq_refl).
Qed.

(** One message: the counts stay at one or more and the log stays safe,
    whatever the message is. *)
Lemma csv_process_message_safe (message : string) (window_size : Z) (s : Csv.state) :
  counted (Csv.continent_stats s) ->
  let r := Csv.process_message env json_loads message window_size s in
  counted (Csv.continent_stats (store r)) /\
  Forall division_safe (logged r) /\
  outcome r = Ok tt.
Proof.
  intros Hd r. subst r.
  destruct (json_loads message) as [v|] eqn:Hload.
  2:{ rewrite (csv_process_message_undecodable _ _ _ Hload).
      split; [exact Hd|]. split; [|reflexivity]. repeat constructor. }
  assert (Hdict : (exists d, v = PDict d) \/ (forall d, v <> PDict d)).
  { destruct v; try (right; discriminate). left. eexists. reflexivity. }
  destruct Hdict as [[d ->]|Hnot].
  2:{ rewrite (csv_process_message_not_a_dict _ _ _ _ Hload Hnot).
      split; [exact Hd|]. split; [|reflexivity]. repeat constructor. }
  destruct (is_None (field d "temperature") || is_None (field d "timestamp"))
    eqn:Hvalid.
  { rewrite (csv_process_message_invalid env json_loads _ _ _ _ Hload Hvalid).
    split; [exact Hd|]. split; [|reflexivity]. repeat constructor. }
  rewrite (csv_process_message_accepted env json_loads _ _ _ _ Hload Hvalid).
  set (s1 := pushed s (field d "temperature")).
  assert (Hseen : Forall division_safe
                    (logged (Csv.detect_stall env (Csv.rolling_window s1) tt))).
  { eapply Forall_impl; [|apply detect_stall_lines]. apply detector_line_safe. }
  assert (Hpre : Forall division_safe
                   [(Csv.DEBUG, Csv.RawMessage message);
                    (Csv.INFO, Csv.ProcessedJSONMessage (PDict d))])
    by (repeat constructor).
  destruct (outcome (Csv.detect_stall env (Csv.rolling_window s1) tt))
    as [stalled|e] eqn:Hdet.
  - destruct (continent_aggregation_safe (field d "continent")
                (field d "temperature") s1 Hd) as [Hc [Hl He]].
    assert (Halert : Forall division_safe
                       (if stalled
                        then [(Csv.INFO, Csv.StallDetected (field d "timestamp")
                                           (field d "temperature") window_size)]
                        else []))
      by (destruct stalled; repeat constructor).
    destruct (Csv.continent_aggregation _ _ s1) as [[[[]|e] s2] la];
      unfold store, logged, outcome in *; cbn [fst snd] in *.
    + split; [exact Hc|]. split; [|reflexivity].
      repeat (apply Forall_app; split); assumption.
    + split; [exact Hc|]. split; [|reflexivity].
      repeat (apply Forall_app; split); try assumption.
      constructor; [|constructor]. apply csv_error_line_safe. apply He. reflexivity.
  - unfold store, logged, outcome; cbn [fst snd].
    split; [exact Hd|]. split; [|reflexivity].
    repeat (apply Forall_app; split); try assumption.
    constructor; [|constructor]. apply csv_error_line_safe.
    exact (detect_stall_raises _ _ Hdet).
Qed.

(** The loop of [main]. *)
Lemma csv_consume_safe (messages : list Csv.kafka_message) (window_size : Z)
    (s : Csv.state) :
  counted (Csv.continent_stats s) ->
  let r := Csv.consume env json_loads messages window_size s in
  counted (Csv.continent_stats (store r)) /\
  Forall division_safe (logged r) /\
  outcome r = Ok tt.
Proof.
  revert s. induction messages as [|message rest IH]; intros s Hd; cbn [Csv.consume].
  - split; [exact Hd|]. split; [constructor|reflexivity].
  - unfold bind. step.
    destruct (csv_process_message_safe (Csv.value_of message) window_size s Hd)
      as [Hc [Hl Ho]].
    destruct (Csv.process_message env json_loads (Csv.value_of message) window_size s)
      as [[o s1] l1].
    unfold store, logged, outcome in Hc, Hl, Ho; cbn [fst snd] in Hc, Hl, Ho.
    subst o.
    destruct (IH s1 Hc) as [Hc' [Hl' Ho']].
    destruct (Csv.consume env json_loads rest window_size s1) as [[o2 s2] l2].
    unfold store, logged, outcome in *; cbn [fst snd] in *.
    split; [exact Hc'|]. split; [|exact Ho'].
    constructor; [exact I|]. apply Forall_app. split; assumption.
Qed.

End Run.

(** C10.  Whatever the messages, [main] never divides by zero: no record of
    its log reports a [ZeroDivisionError], every logged average was divided
    by a count of at least one, the count being incremented before the
    division, and every item left in [continent_stats] has counted at least
    one reading. *)
Theorem average_never_divides_by_zero (env : Csv.environ)
    (json_loads : string -> option value) (messages : list Csv.kafka_message) :
  Forall division_safe (fst (Csv.main env json_loads messages)) /\
  (forall s, snd (Csv.main env json_loads messages) = Ok s ->
             counted (Csv.continent_stats s)).
Proof.
  unfold Csv.main, Csv.startup, Csv.get_kafka_topic, Csv.get_kafka_consumer_group_id,
    Csv.get_rolling_window_size, bind.
  cbn [app fst snd Csv.logger emit ret lift].
  destruct (deque_new (Csv.SMOKER_ROLLING_WINDOW_SIZE env)) as [rolling_window|e].
  - cbn [app fst snd Csv.logger emit ret lift].
    set (s0 := {| Csv.rolling_window := rolling_window; Csv.continent_stats := [] |}).
    destruct (csv_consume_safe env json_loads messages
                (Csv.SMOKER_ROLLING_WINDOW_SIZE env) s0 (Forall_nil _))
      as [Hc [Hl Ho]].
    destruct (Csv.consume env json_loads messages _ s0) as [[o s1] l1].
    unfold store, logged, outcome in *; cbn [fst snd] in *. subst o.
    cbn [app fst snd Csv.logger emit ret lift]. split.
    + repeat (constructor; [exact I|]).
      apply Forall_app. split; [exact Hl|]. repeat constructor.
    + intros s H; injection H as <-. exact Hc.
  - cbn [fst snd]. split; [repeat constructor|discriminate].
Qed.

End DivisionSafety.

(** ** Values that are not numbers *)

Section NonNumeric.
Import Py Eff Window Handlers Examples.

Lemma py_cmp_same_class (op : cmpop) (a b : value) (c : bool) :
  py_cmp op a b = Ok c -> is_num a = is_num b.
Proof. destruct a; destruct b; simpl; try discriminate; reflexivity. Qed.

Lemma extremum_class (op : cmpop) (rest : list value) (best m : value) :
  extremum op best rest = Ok m ->
  is_num m = is_num best /\ forall x, In x rest -> is_num x = is_num best.
Proof.
  revert best; induction rest as [|item rest IH]; intros best; simpl.
  - intros H; injection H as <-. split; [reflexivity|]. intros x [].
  - destruct (py_cmp op item best) as [[|]|e] eqn:Hcmp; [| |discriminate];
      apply py_cmp_same_class in Hcmp; intros H; destruct (IH _ H) as [Hm Hrest].
    + split; [congruence|]. intros x [<-|Hx]; [exact Hcmp|].
      rewrite (Hrest x Hx). exact Hcmp.
    + split; [exact Hm|]. intros x [<-|Hx]; [exact Hcmp|]. exact (Hrest x Hx).
Qed.

Lemma py_sub_ok_num (a b r : value) : py_sub a b = Ok r -> is_num a = true.
Proof.
  unfold py_sub, is_num. destruct (as_num a) as [n|]; [reflexivity|].
  discriminate.
Qed.

(** A range can only be computed on a window of numbers. *)
Lemma range_ok_numeric (d : deque) (r : value) :
  range d = Ok r -> items d <> [] /\ forall x, In x (items d) -> is_num x = true.
Proof.
  unfold range, py_max, py_min.
  destruct (items d) as [|x rest]; [discriminate|].
  destruct (extremum OpGt x rest) as [hi|e] eqn:Hhi; [|discriminate].
  destruct (extremum OpLt x rest) as [lo|e] eqn:Hlo; [|discriminate].
  intros Hsub. apply py_sub_ok_num in Hsub.
  destruct (extremum_class _ _ _ _ Hhi) as [Hm Hrest].
  split; [discriminate|].
  intros y [<-|Hy]; [congruence|]. rewrite (Hrest y Hy). congruence.
Qed.

Lemma append_holds_value (w : deque) (v : value) :
  items (append w v) = [] \/ In v (items (append w v)).
Proof.
  unfold append; cbn [items].
  destruct (maxlen w <? _).
  - destruct (items w) as [|x l]; [left; reflexivity|].
    right. simpl. apply in_or_app. right. left. reflexivity.
  - right. apply in_or_app. right. left. reflexivity.
Qed.

Lemma py_add_num (acc x r : value) :
  is_num acc = true -> py_add acc x = Ok r -> is_num x = true /\ is_num r = true.
Proof.
  unfold py_add, is_num.
  destruct (as_num acc) as [[a|f]|] eqn:Hacc; [| |discriminate]; intros _;
    destruct (as_num x) as [[y|g]|];
    try (intros H; injection H as <-; split; reflexivity);
    try (destruct (float_of_int _); [|discriminate];
         intros H; injection H as <-; split; reflexivity);
    destruct acc; try discriminate Hacc; destruct x; discriminate.
Qed.

Lemma sum_from_non_numeric (l : list value) (acc v : value) :
  is_num acc = true -> In v l -> is_num v = false ->
  exists e, sum_from acc l = Raise e.
Proof.
  revert acc; induction l as [|x l IH]; intros acc Hacc Hin Hv; [destruct Hin|].
  simpl. destruct (py_add acc x) as [acc'|e] eqn:Hadd; [|exists e; reflexivity].
  destruct (py_add_num _ _ _ Hacc Hadd) as [Hx Hacc'].
  destruct Hin as [->|Hin]; [congruence|].
  exact (IH acc' Hacc' Hin Hv).
Qed.

(** C9 as the specification words it: a non-null value and a timestamp
    would be enough for the value to be pushed.  The hot-streak consumer
    rejects such a record when it has no player: the string is not pushed. *)
Lemma text_value_without_player_is_not_pushed :
  let d := wnba_fields_text_no_player in
  let r := Json.process_message (wnba_env 20) (decodes_to (PDict d)) "m" 5 four_games in
  field d "ppg" = PStr "hot" /\ is_num (field d "ppg") = false /\
  field d "timestamp" <> PNone /\
  store r = four_games /\
  In (Json.ERROR, Json.InvalidMessageFormat "m") (logged r).
Proof.
  cbv zeta. split; [reflexivity|]. split; [reflexivity|]. split; [discriminate|].
  split; [reflexivity|]. right. left. reflexivity.
Qed.

(** C9, amended.  The check only asks for non-null fields, not for a number.
    In the stall consumer a record whose temperature is non-null but not a
    number, with a timestamp, is appended to the window; when the window is
    then full the detector raises, the error is logged, the aggregation is
    skipped, and the window stays mutated.  The hot-streak consumer does the
    same with the ppg, provided the record also has a non-null player: the
    ppg is appended, and when the window then holds [window_size > 0] values
    the detector raises and the error is logged, the window staying
    mutated. *)
Theorem non_numeric_value_reaches_window (json_loads : string -> option value)
    (message : string) (d : list (string * value))
    (Hload : json_loads message = Some (PDict d))
    (Htime : field d "timestamp" <> PNone) :
  (field d "temperature" <> PNone -> is_num (field d "temperature") = false ->
   forall (env : Csv.environ) (window_size : Z) (s : Csv.state),
     let r := Csv.process_message env json_loads message window_size s in
     let w' := append (Csv.rolling_window s) (field d "temperature") in
     Csv.rolling_window (store r) = w' /\
     (Csv.SMOKER_ROLLING_WINDOW_SIZE env <= len w' ->
      Csv.continent_stats (store r) = Csv.continent_stats s /\
      exists e, In (csv_error_line message e) (logged r))) /\
  (field d "ppg" <> PNone -> is_num (field d "ppg") = false ->
   field d "player" <> PNone ->
   forall (env : Json.environ) (window_size : Z) (w : deque),
     let r := Json.process_message env json_loads message window_size w in
     let w' := append w (field d "ppg") in
     store r = w' /\
     (len w' = window_size -> 0 < window_size ->
      exists e, In (json_error_line e) (logged r))).
Proof.
  apply is_None_false in Htime.
  split.
  - intros Htemp Hnum env window_size s r w'. subst r.
    apply is_None_false in Htemp.
    assert (Hvalid : is_None (field d "temperature")
                     || is_None (field d "timestamp") = false)
      by (rewrite Htemp, Htime; reflexivity).
    split.
    + apply (csv_accepted_window env json_loads message window_size s d Hload Hvalid).
    + intros Hfull.
      rewrite (csv_process_message_accepted env json_loads message window_size s d
                 Hload Hvalid).
      change (Csv.rolling_window (pushed s (field d "temperature"))) with w'.
      assert (Hraise : exists e, outcome (Csv.detect_stall env w' tt) = Raise e).
      { rewrite detect_stall_outcome.
        destruct (Z.ltb_spec (len w') (Csv.SMOKER_ROLLING_WINDOW_SIZE env)); [lia|].
        destruct (range w') as [r|e] eqn:Hrange; [|exists e; reflexivity].
        exfalso. destruct (range_ok_numeric _ _ Hrange) as [Hne Hall].
        destruct (append_holds_value (Csv.rolling_window s) (field d "temperature"))
          as [Hempty|Hin]; [exact (Hne Hempty)|].
        rewrite (Hall _ Hin) in Hnum. discriminate Hnum. }
      destruct Hraise as [e He]. rewrite He.
      unfold store, logged; cbn [fst snd]. split; [reflexivity|].
      exists e. apply in_or_app. right. apply in_or_app. right. left. reflexivity.
  - intros Hppg Hnum Hplayer env window_size w r w'. subst r.
    apply is_None_false in Hppg. apply is_None_false in Hplayer.
    rewrite (json_process_message_accepted env json_loads message window_size w d Hload)
      by (rewrite Hplayer, Hppg, Htime; reflexivity).
    fold w'. split.
    + destruct (len w' =? window_size); [|reflexivity].
      destruct (outcome (Json.detect_hot_streak env w' tt)) as [[|]|e];
        try reflexivity.
      destruct (py_sum _) as [total|e]; [|reflexivity].
      destruct (py_truediv total _); reflexivity.
    + intros Hlen Hpos.
      destruct (Z.eqb_spec (len w') window_size) as [_|Hne]; [|contradiction].
      assert (Hin : In (field d "ppg") (items w')).
      { destruct (append_holds_value w (field d "ppg")) as [Hempty|Hin];
          [|exact Hin].
        exfalso. unfold len in Hlen. fold w' in Hempty. rewrite Hempty in Hlen.
        simpl in Hlen. lia. }
      destruct (sum_from_non_numeric (items w') (PInt 0) _ eq_refl Hin Hnum)
        as [e He].
      assert (Hdet : outcome (Json.detect_hot_streak env w' tt) = Raise e).
      { rewrite detect_hot_streak_outcome.
        destruct (items w') as [|x l] eqn:Hitems; [destruct Hin|].
        unfold mean, py_sum. rewrite Hitems, He. reflexivity. }
      rewrite Hdet. exists e. unfold logged; cbn [snd].
      apply in_or_app. right. apply in_or_app. right. left. reflexivity.
Qed.

Lemma non_numeric_value_reaches_window_witness :
  let json_loads := decodes_to (PDict smoker_fields_text) in
  let d := smoker_fields_text in
  let s := {| Csv.rolling_window := flat_window; Csv.continent_stats := [] |} in
  let r := Csv.process_message (smoker_env 0.2) json_loads "m" 5 s in
  let w' := append (Csv.rolling_window s) (field d "temperature") in
  json_loads "m" = Some (PDict d) /\
  field d "timestamp" <> PNone /\
  field d "temperature" <> PNone /\
  is_num (field d "temperature") = false /\
  Csv.SMOKER_ROLLING_WINDOW_SIZE (smoker_env 0.2) <= len w' /\
  Csv.rolling_window (store r) = w' /\
  Csv.continent_stats (store r) = Csv.continent_stats s /\
  exists e, In (csv_error_line "m" e) (logged r).
Proof.
  intros json_loads d s r w'.
  split; [reflexivity|]. split; [discriminate|]. split; [discriminate|].
  split; [reflexivity|]. split; [vm_compute; discriminate|].
  destruct (proj1 (non_numeric_value_reaches_window json_loads "m" d eq_refl
                     ltac:(discriminate))
              ltac:(discriminate) eq_refl (smoker_env 0.2) 5 s) as [Hwin Hfull].
  split; [exact Hwin|].
  apply Hfull. vm_compute. discriminate.
Defined.

End NonNumeric.

(** * Further properties of the consumers *)

(** ** One message, whatever it is *)

Section AnyMessage.
Import Py Eff Window Handlers Stream.
Variable json_loads : string -> option value.

Lemma json_process_message_undecodable (env : Json.environ) (message : string)
    (window_size : Z) (w : deque) :
  json_loads message = None ->
  Json.process_message env json_loads message window_size w =
  (Ok tt, w, [(Json.DEBUG, Json.RawMessage message);
              (Json.ERROR, Json.JSONDecodingError)]).
Proof.
  intros Hload. unfold Json.process_message, try_except, bind.
  cbn [Json.logger emit]. rewrite Hload. reflexivity.
Qed.

Lemma json_process_message_not_a_dict (env : Json.environ) (message : string)
    (window_size : Z) (w : deque) (v : value) :
  json_loads message = Some v ->
  (forall d, v <> PDict d) ->
  Json.process_message env json_loads message window_size w =
  (Ok tt, w, [(Json.DEBUG, Json.RawMessage message);
              (Json.ERROR, Json.ErrorProcessingMessage AttributeError)]).
Proof.
  intros Hload Hv. unfold Json.process_message, try_except, bind.
  cbn [Json.logger emit]. rewrite Hload.
  destruct v; try reflexivity. exfalso. exact (Hv _ eq_refl).
Qed.

Lemma dict_or_not (v : value) : (exists d, v = PDict d) \/ (forall d, v <> PDict d).
Proof. destruct v; try (right; discriminate). left. eexists. reflexivity. Qed.

(** What one message does to the window of the stall consumer. *)
Lemma csv_process_message_window (env : Csv.environ) (message : string)
    (window_size : Z) (s : Csv.state) :
  let r := Csv.process_message env json_loads message window_size s in
  outcome r = Ok tt /\
  Csv.rolling_window (store r)
  = match csv_reading json_loads message with
    | Some v => append (Csv.rolling_window s) v
    | None => Csv.rolling_window s
    end.
Proof.
  intros r. subst r. unfold csv_reading.
  destruct (json_loads message) as [v|] eqn:Hload.
  2:{ rewrite (csv_process_message_undecodable env json_loads _ _ _ Hload).
      split; reflexivity. }
  destruct (dict_or_not v) as [[d ->]|Hnot].
  2:{ rewrite (csv_process_message_not_a_dict env json_loads _ _ _ _ Hload Hnot).
      split; [reflexivity|]. destruct v; try reflexivity.
      exfalso. exact (Hnot _ eq_refl). }
  destruct (is_None (field d "temperature") || is_None (field d "timestamp"))
    eqn:Hvalid.
  - rewrite (csv_process_message_invalid env json_loads _ _ _ _ Hload Hvalid).
    split; reflexivity.
  - destruct (csv_accepted_window env json_loads message window_size s d Hload Hvalid)
      as [Hwin [Hout _]].
    split; [exact Hout|exact Hwin].
Qed.

(** What one message does to the window of the hot-streak consumer. *)
Lemma json_process_message_window (env : Json.environ) (message : string)
    (window_size : Z) (w : deque) :
  let r := Json.process_message env json_loads message window_size w in
  outcome r = Ok tt /\
  store r = match json_reading json_loads message with
            | Some v => append w v
            | None => w
            end.
Proof.
  intros r. subst r. unfold json_reading.
  destruct (json_loads message) as [v|] eqn:Hload.
  2:{ rewrite (json_process_message_undecodable env _ _ _ Hload). split; reflexivity. }
  destruct (dict_or_not v) as [[d ->]|Hnot].
  2:{ rewrite (json_process_message_not_a_dict env _ _ _ _ Hload Hnot).
      split; [reflexivity|]. destruct v; try reflexivity.
      exfalso. exact (Hnot _ eq_refl). }
  destruct (is_None (field d "player") || is_None (field d "ppg")
            || is_None (field d "timestamp")) eqn:Hvalid.
  - rewrite (json_process_message_invalid env json_loads _ _ _ _ Hload Hvalid).
    split; reflexivity.
  - rewrite (json_process_message_accepted env json_loads _ _ _ _ Hload Hvalid).
    destruct (len _ =? window_size); [|split; reflexivity].
    destruct (outcome (Json.detect_hot_streak env _ tt)) as [[|]|e];
      try (split; reflexivity).
    destruct (py_sum _) as [total|e]; [|split; reflexivity].
    destruct (py_truediv total _); split; reflexivity.
Qed.

(** X1.  [process_message] of the stall consumer never lets an exception
    out: whatever the message, the decoder, the environment and the store,
    it returns normally. *)
Theorem csv_process_message_contains_errors (env : Csv.environ) (message : string)
    (window_size : Z) (s : Csv.state) :
  outcome (Csv.process_message env json_loads message window_size s) = Ok tt.
Proof. apply (csv_process_message_window env message window_size s). Qed.

(** X2.  [process_message] of the hot-streak consumer never lets an
    exception out either. *)
Theorem json_process_message_contains_errors (env : Json.environ) (message : string)
    (window_size : Z) (w : deque) :
  outcome (Json.process_message env json_loads message window_size w) = Ok tt.
Proof. apply (json_process_message_window env message window_size w). Qed.

End AnyMessage.

(** ** Malformed messages and whole runs *)

Section Runs.
Import Py Eff Window Handlers Stream Examples.
Variable json_loads : string -> option value.







End Runs.

(** ** Edge cases of the aggregation *)

Section AggregationEdges.
Import Py Eff Window Handlers Stream.
Variable json_loads : string -> option value.

Lemma csv_error_line_is_no_average (message : string) (e : exn)
    (c a : value) (n : Z) :
  csv_error_line message e <> (Csv.INFO, Csv.ContinentAvg c a n).
Proof. destruct e; discriminate. Qed.

(** The log of an accepted record when the aggregation logs nothing. *)
Lemma csv_no_average_logged (env : Csv.environ) (message : string) (window_size : Z)
    (s : Csv.state) (d : list (string * value)) :
  json_loads message = Some (PDict d) ->
  is_None (field d "temperature") || is_None (field d "timestamp") = false ->
  logged (Csv.continent_aggregation (field d "continent") (field d "temperature")
            (pushed s (field d "temperature"))) = [] ->
  forall c a n,
    ~ In (Csv.INFO, Csv.ContinentAvg c a n)
         (logged (Csv.process_message env json_loads message window_size s)).
Proof.
  intros Hload Hvalid Hquiet c a n.
  rewrite (csv_process_message_accepted env json_loads message window_size s d
             Hload Hvalid).
  assert (Hseen := detect_stall_lines env
                     (Csv.rolling_window (pushed s (field d "temperature")))).
  rewrite Forall_forall in Hseen.
  destruct (outcome (Csv.detect_stall env _ tt)) as [stalled|e].
  - destruct (Csv.continent_aggregation _ _ _) as [[[[]|e] s2] la];
      unfold logged in Hquiet |- * at 1; cbn [snd] in Hquiet |- *; subst la;
      intros H; repeat (apply in_app_or in H; destruct H as [H|H]);
      try (destruct H as [H|[H|[]]]; discriminate H);
      try (apply Hseen in H; discriminate H);
      try (destruct stalled; [destruct H as [H|[]]; discriminate H|destruct H]);
      try (destruct H as [H|[]]; exact (csv_error_line_is_no_average _ _ _ _ _ H));
      try (destruct H).
  - unfold logged at 1; cbn [snd]; intros H;
      repeat (apply in_app_or in H; destruct H as [H|H]).
    + destruct H as [H|[H|[]]]; discriminate H.
    + apply Hseen in H; discriminate H.
    + destruct H as [H|[]]; exact (csv_error_line_is_no_average _ _ _ _ _ H).
Qed.

(** What an accepted record leaves in [continent_stats]: what the
    aggregation left, when the detector did not raise. *)
Lemma csv_accepted_stats (env : Csv.environ) (message : string) (window_size : Z)
    (s : Csv.state) (d : list (string * value)) :
  json_loads message = Some (PDict d) ->
  is_None (field d "temperature") || is_None (field d "timestamp") = false ->
  Csv.continent_stats
    (store (Csv.process_message env json_loads message window_size s))
  = match outcome (Csv.detect_stall env
                     (Csv.rolling_window (pushed s (field d "temperature"))) tt) with
    | Ok _ =>
        Csv.continent_stats
          (store (Csv.continent_aggregation (field d "continent")
                    (field d "temperature") (pushed s (field d "temperature"))))
    | Raise _ => Csv.continent_stats s
    end.
Proof.
  intros Hload Hvalid.
  rewrite (csv_process_message_accepted env json_loads message window_size s d
             Hload Hvalid).
  destruct (outcome (Csv.detect_stall env _ tt)) as [stalled|e]; [|reflexivity].
  destruct (Csv.continent_aggregation _ _ _) as [[[[]|e] s2] la]; reflexivity.
Qed.

(** X7.  An accepted record whose continent is missing, null or empty (any
    falsy value) is not aggregated: [continent_stats] is left as it was and
    no average is logged. *)
Theorem record_without_continent_is_not_aggregated (message : string)
    (d : list (string * value))
    (Hload : json_loads message = Some (PDict d))
    (Htemp : field d "temperature" <> PNone)
    (Htime : field d "timestamp" <> PNone)
    (Hcont : truthy (field d "continent") = false) :
  forall (env : Csv.environ) (window_size : Z) (s : Csv.state),
    let r := Csv.process_message env json_loads message window_size s in
    Csv.continent_stats (store r) = Csv.continent_stats s /\
    forall c a n, ~ In (Csv.INFO, Csv.ContinentAvg c a n) (logged r).
Proof.
  intros env window_size s r. subst r.
  apply is_None_false in Htemp. apply is_None_false in Htime.
  assert (Hvalid : is_None (field d "temperature")
                   || is_None (field d "timestamp") = false)
    by (rewrite Htemp, Htime; reflexivity).
  assert (Hagg : Csv.continent_aggregation (field d "continent")
                   (field d "temperature") (pushed s (field d "temperature"))
                 = (Ok tt, pushed s (field d "temperature"), []))
    by (rewrite continent_aggregation_run, Hcont; reflexivity).
  split.
  - rewrite (csv_accepted_stats env message window_size s d Hload Hvalid), Hagg.
    destruct (outcome _); reflexivity.
  - apply (csv_no_average_logged env message window_size s d Hload Hvalid).
    rewrite Hagg. reflexivity.
Qed.

(** X8.  An accepted record whose continent is a non-empty list or mapping
    cannot be used as a key: [continent_stats] is left as it was, no
    average is logged, and the log reports an error, while the temperature
    stays in the window. *)
Theorem unhashable_continent_is_an_error (message : string)
    (d : list (string * value))
    (Hload : json_loads message = Some (PDict d))
    (Htemp : field d "temperature" <> PNone)
    (Htime : field d "timestamp" <> PNone)
    (Htruthy : truthy (field d "continent") = true)
    (Hhash : hashable (field d "continent") = false) :
  forall (env : Csv.environ) (window_size : Z) (s : Csv.state),
    let r := Csv.process_message env json_loads message window_size s in
    Csv.rolling_window (store r)
    = append (Csv.rolling_window s) (field d "temperature") /\
    Csv.continent_stats (store r) = Csv.continent_stats s /\
    (exists e, In (csv_error_line message e) (logged r)) /\
    forall c a n, ~ In (Csv.INFO, Csv.ContinentAvg c a n) (logged r).
Proof.
  intros env window_size s r. subst r.
  apply is_None_false in Htemp. apply is_None_false in Htime.
  assert (Hvalid : is_None (field d "temperature")
                   || is_None (field d "timestamp") = false)
    by (rewrite Htemp, Htime; reflexivity).
  assert (Hagg : Csv.continent_aggregation (field d "continent")
                   (field d "temperature") (pushed s (field d "temperature"))
                 = (Raise TypeError, pushed s (field d "temperature"), []))
    by (rewrite continent_aggregation_run, Htruthy, Hhash; reflexivity).
  split; [|split; [|split]].
  - apply (csv_accepted_window env json_loads message window_size s d Hload Hvalid).
  - rewrite (csv_accepted_stats env message window_size s d Hload Hvalid), Hagg.
    destruct (outcome _); reflexivity.
  - rewrite (csv_process_message_accepted env json_loads message window_size s d
               Hload Hvalid), Hagg.
    destruct (outcome (Csv.detect_stall env _ tt)) as [stalled|e];
      [exists TypeError|exists e]; unfold logged; cbn [snd];
      repeat (apply in_or_app; right); left; reflexivity.
  - apply (csv_no_average_logged env message window_size s d Hload Hvalid).
    rewrite Hagg. reflexivity.
Qed.

End AggregationEdges.

(** ** What the aggregation leaves for each key *)

Section AggregationByKey.
Import Py Eff Window Handlers Stream Examples.

Lemma truthy_name (k : string) : k <> "" -> truthy (PStr k) = true.
Proof. intros Hk. simpl. destruct (String.eqb_spec k ""); [contradiction|reflexivity]. Qed.

Lemma map_fst_update_at (i : nat) (f : Csv.stats -> Csv.stats)
    (d : list (value * Csv.stats)) :
  map fst (Csv.update_at i f d) = map fst d.
Proof.
  revert i; induction d as [|[k st] d IH]; intros i; simpl; [reflexivity|].
  destruct i as [|i]; simpl; [reflexivity|]. rewrite IH. reflexivity.
Qed.

(** The item of every continent name after the aggregation block ran for
    the name [k]: the count of [k] is one higher; its sum has the
    temperature added when the addition succeeded and is left as it was when
    the addition raised; the other names are untouched. *)
Lemma aggregation_by_key (k k' : string) (t : value) (s : Csv.state) :
  k <> "" ->
  let old := standing (PStr k) (Csv.continent_stats s) in
  stats_get (PStr k')
    (Csv.continent_stats (store (Csv.continent_aggregation (PStr k) t s)))
  = if String.eqb k k'
    then Some {| Csv.count := Csv.count old + 1;
                 Csv.sum_temp := match py_add (Csv.sum_temp old) t with
                                 | Ok total => total
                                 | Raise _ => Csv.sum_temp old
                                 end |}
    else stats_get (PStr k') (Csv.continent_stats s).
Proof.
  intros Hk old.
  rewrite continent_aggregation_run, (truthy_name k Hk). cbn [hashable].
  unfold looked_up. fold old.
  assert (Hother : String.eqb k k' = false ->
                   forall key, py_eq key (PStr k) = true ->
                               py_eq key (PStr k') = false).
  { intros Hne key Hkey. apply py_eq_str in Hkey. subst key. exact Hne. }
  destruct (Csv.find_key (PStr k) (Csv.continent_stats s)) as [i|] eqn:Hfind;
    cbv zeta;
    destruct (py_add (Csv.sum_temp old) t) as [total|e];
    try (destruct (py_truediv total _) as [avg|e]);
    unfold store; cbn [fst snd with_stats Csv.continent_stats];
    destruct (String.eqb_spec k k') as [<-|Hne].
  all: try (rewrite (stats_get_update_at _ _ _ _ Hfind);
            destruct (find_key_some _ _ _ Hfind) as [_ Hget];
            unfold old, standing; rewrite Hget; reflexivity).
  all: try (apply (stats_get_update_other _ _ _ _ _ Hfind);
            apply Hother; reflexivity).
  all: try (rewrite update_at_end,
              (stats_get_end _ _ _ _ (find_key_none _ _ Hfind));
            cbn [py_eq]; rewrite String.eqb_refl;
            unfold old, standing; rewrite (find_key_none _ _ Hfind); reflexivity).
  all: rewrite update_at_end; apply stats_get_end_other;
       cbn [py_eq]; apply String.eqb_neq; exact Hne.
Qed.

Lemma py_add_num_text (acc x : value) :
  is_num acc = true -> is_num x = false -> py_add acc x = Raise TypeError.
Proof.
  unfold is_num, py_add.
  destruct (as_num acc) as [[a|f]|] eqn:Hacc; [| |discriminate]; intros _;
    destruct (as_num x) as [n|] eqn:Hx; try discriminate; intros _;
    destruct acc; try discriminate Hacc; destruct x; try discriminate Hx;
    reflexivity.
Qed.

(** X9.  A record whose temperature is not a number, with a continent name,
    accepted while the window is still below capacity, leaves the aggregator
    out of step: the count of the continent goes up by one, its sum is left
    as it was, and the log reports a [TypeError] instead of an average. *)
Theorem count_without_sum (json_loads : string -> option value)
    (env : Csv.environ) (message : string) (window_size : Z) (s : Csv.state)
    (d : list (string * value)) (k : string)
    (Hload : json_loads message = Some (PDict d))
    (Htemp : field d "temperature" <> PNone)
    (Htext : is_num (field d "temperature") = false)
    (Htime : field d "timestamp" <> PNone)
    (Hcont : field d "continent" = PStr k)
    (Hk : k <> "")
    (Hroom : len (append (Csv.rolling_window s) (field d "temperature"))
             < Csv.SMOKER_ROLLING_WINDOW_SIZE env)
    (Hsum : is_num (Csv.sum_temp (standing (PStr k) (Csv.continent_stats s))) = true) :
  let old := standing (PStr k) (Csv.continent_stats s) in
  let r := Csv.process_message env json_loads message window_size s in
  stats_get (PStr k) (Csv.continent_stats (store r))
  = Some {| Csv.count := Csv.count old + 1; Csv.sum_temp := Csv.sum_temp old |} /\
  In (Csv.ERROR, Csv.ErrorProcessingMessage message TypeError) (logged r) /\
  forall c a n, ~ In (Csv.INFO, Csv.ContinentAvg c a n) (logged r).
Proof.
  intros old r. subst r.
  apply is_None_false in Htemp. apply is_None_false in Htime.
  assert (Hvalid : is_None (field d "temperature")
                   || is_None (field d "timestamp") = false)
    by (rewrite Htemp, Htime; reflexivity).
  assert (Hdet : outcome (Csv.detect_stall env
                   (Csv.rolling_window (pushed s (field d "temperature"))) tt)
                 = Ok false).
  { rewrite detect_stall_outcome. cbn [pushed Csv.rolling_window].
    destruct (Z.ltb_spec
                (len (append (Csv.rolling_window s) (field d "temperature")))
                (Csv.SMOKER_ROLLING_WINDOW_SIZE env)); [reflexivity|lia]. }
  assert (Hadd := py_add_num_text _ _ Hsum Htext).
  assert (Hagg : Csv.continent_aggregation (PStr k) (field d "temperature")
                   (pushed s (field d "temperature"))
                 = (Raise TypeError,
                    store (Csv.continent_aggregation (PStr k) (field d "temperature")
                             (pushed s (field d "temperature"))), [])).
  { rewrite continent_aggregation_run, (truthy_name k Hk). cbn [hashable].
    destruct (looked_up _ _) as [i d1]. cbv zeta.
    change (Csv.continent_stats (pushed s (field d "temperature")))
      with (Csv.continent_stats s).
    rewrite Hadd. reflexivity. }
  split; [|split].
  - rewrite (csv_accepted_stats json_loads env message window_size s d Hload Hvalid).
    rewrite Hdet, Hcont.
    rewrite (aggregation_by_key k k _ _ Hk), String.eqb_refl.
    change (Csv.continent_stats (pushed s (field d "temperature")))
      with (Csv.continent_stats s).
    rewrite Hadd. reflexivity.
  - rewrite (csv_process_message_accepted env json_loads message window_size s d
               Hload Hvalid).
    rewrite Hdet, Hcont, Hagg. unfold logged; cbn [snd].
    repeat (apply in_or_app; right). left. reflexivity.
  - apply (csv_no_average_logged json_loads env message window_size s d Hload Hvalid).
    rewrite Hcont, Hagg. reflexivity.
Qed.

End AggregationByKey.

(** ** Keys are only ever added *)

Section Keys.
Import Py Eff Window Handlers Stream.
Variable json_loads : string -> option value.

Lemma aggregation_keys (c t : value) (s : Csv.state) :
  let keys := map fst (Csv.continent_stats s) in
  let keys' :=
    map fst (Csv.continent_stats (store (Csv.continent_aggregation c t s))) in
  keys' = keys \/ keys' = keys ++ [c].
Proof.
  cbv zeta. rewrite continent_aggregation_run.
  destruct (truthy c); [|left; reflexivity].
  destruct (hashable c); [|left; reflexivity].
  unfold looked_up.
  destruct (Csv.find_key c (Csv.continent_stats s)) as [i|]; cbv zeta;
    destruct (py_add _ t) as [total|e];
    try (destruct (py_truediv total _) as [avg|e]);
    unfold store; cbn [fst snd with_stats Csv.continent_stats];
    rewrite map_fst_update_at;
    first [left; reflexivity | right; rewrite map_app; reflexivity].
Qed.

(** X10.  No message ever removes or reorders a key of [continent_stats]:
    after [process_message] the keys are the keys before, in the same
    order, followed by at most one new key, the continent of the record. *)
Theorem keys_are_only_added (env : Csv.environ) (message : string)
    (window_size : Z) (s : Csv.state) :
  let keys := map fst (Csv.continent_stats s) in
  let keys' :=
    map fst (Csv.continent_stats
               (store (Csv.process_message env json_loads message window_size s))) in
  keys' = keys \/
  exists d, json_loads message = Some (PDict d) /\
            keys' = keys ++ [field d "continent"].
Proof.
  cbv zeta.
  destruct (json_loads message) as [v|] eqn:Hload.
  2:{ rewrite (csv_process_message_undecodable env json_loads _ _ _ Hload).
      left; reflexivity. }
  destruct (dict_or_not v) as [[d ->]|Hnot].
  2:{ rewrite (csv_process_message_not_a_dict env json_loads _ _ _ _ Hload Hnot).
      left; reflexivity. }
  destruct (is_None (field d "temperature") || is_None (field d "timestamp"))
    eqn:Hvalid.
  { rewrite (csv_process_message_invalid env json_loads _ _ _ _ Hload Hvalid).
    left; reflexivity. }
  rewrite (csv_accepted_stats json_loads env message window_size s d Hload Hvalid).
  destruct (outcome (Csv.detect_stall env _ tt)) as [stalled|e]; [|left; reflexivity].
  destruct (aggregation_keys (field d "continent") (field d "temperature")
              (pushed s (field d "temperature"))) as [H|H].
  - left. exact H.
  - right. exists d. split; [reflexivity|exact H].
Qed.

End Keys.

(** ** Well-formed streams *)

Section FloatStreams.
Import Py Eff Window Handlers Stream Examples.
Variable env : Csv.environ.
Variable json_loads : string -> option value.











End FloatStreams.

(** ** Alerts over whole runs *)

Section AlertsOverRuns.
Import Py Eff Window Handlers Stream Examples.
Variable json_loads : string -> option value.

Lemma len_append_le (w : deque) (v : value) : len (append w v) <= len w + 1.
Proof.
  unfold len, append; cbn [items].
  destruct (maxlen w <? _).
  - destruct (items w) as [|x l]; simpl; [lia|].
    rewrite length_app; simpl. lia.
  - rewrite length_app; simpl. lia.
Qed.

(** A stall alert is only logged with a window at or above the configured
    size. *)
Lemma csv_alert_needs_full (env : Csv.environ) (message : string) (window_size : Z)
    (s : Csv.state) (a b : value) (c : Z) :
  let r := Csv.process_message env json_loads message window_size s in
  In (Csv.INFO, Csv.StallDetected a b c) (logged r) ->
  Csv.SMOKER_ROLLING_WINDOW_SIZE env <= len (Csv.rolling_window (store r)).
Proof.
  intros r. subst r.
  destruct (json_loads message) as [v|] eqn:Hload.
  2:{ rewrite (csv_process_message_undecodable env json_loads _ _ _ Hload).
      intros [H|[H|[]]]; discriminate H. }
  destruct (dict_or_not v) as [[d ->]|Hnot].
  2:{ rewrite (csv_process_message_not_a_dict env json_loads _ _ _ _ Hload Hnot).
      intros [H|[H|[]]]; discriminate H. }
  destruct (is_None (field d "temperature") || is_None (field d "timestamp"))
    eqn:Hvalid.
  { rewrite (csv_process_message_invalid env json_loads _ _ _ _ Hload Hvalid).
    intros [H|[H|[H|[]]]]; discriminate H. }
  intros Hin.
  destruct (csv_accepted_window env json_loads message window_size s d Hload Hvalid)
    as [Hwin _].
  rewrite Hwin.
  apply (csv_accepted_log env json_loads message window_size s d _ Hload Hvalid) in Hin.
  destruct Hin as [H|[H|[H|[[_ H]|[H|[e H]]]]]]; try discriminate H.
  - rewrite detect_stall_outcome in H. cbn [pushed Csv.rolling_window] in H.
    destruct (Z.ltb_spec (len (append (Csv.rolling_window s) (field d "temperature")))
                (Csv.SMOKER_ROLLING_WINDOW_SIZE env)); [discriminate H|lia].
  - destruct e; discriminate H.
Qed.

Lemma csv_consume_warm_up (env : Csv.environ) (messages : list Csv.kafka_message)
    (window_size : Z) (s : Csv.state) :
  len (Csv.rolling_window s)
  + Z.of_nat (List.length
                (somes (map (fun m => csv_reading json_loads (Csv.value_of m))
                          messages)))
  < Csv.SMOKER_ROLLING_WINDOW_SIZE env ->
  forall a b c,
    ~ In (Csv.INFO, Csv.StallDetected a b c)
         (logged (Csv.consume env json_loads messages window_size s)).
Proof.
  revert s. induction messages as [|m rest IH]; intros s Hroom a b c;
    cbn [Csv.consume].
  - intros [].
  - unfold bind. cbn [Csv.logger emit fst snd app].
    assert (Hfull := csv_alert_needs_full env (Csv.value_of m) window_size s a b c).
    destruct (csv_process_message_window json_loads env (Csv.value_of m) window_size s)
      as [Ho Hw].
    cbv zeta in Hfull.
    destruct (Csv.process_message env json_loads (Csv.value_of m) window_size s)
      as [[o s1] l1].
    unfold store, outcome, logged in Ho, Hw, Hfull; cbn [fst snd] in Ho, Hw, Hfull.
    subst o. cbn [map somes] in Hroom.
    assert (Hlen : len (Csv.rolling_window s1)
                   + Z.of_nat (List.length
                                 (somes (map (fun m => csv_reading json_loads
                                                         (Csv.value_of m)) rest)))
                   < Csv.SMOKER_ROLLING_WINDOW_SIZE env).
    { rewrite Hw. destruct (csv_reading json_loads (Csv.value_of m)) as [v|].
      - cbn [List.length] in Hroom.
        assert (H := len_append_le (Csv.rolling_window s) v). lia.
      - exact Hroom. }
    specialize (IH s1 Hlen a b c).
    destruct (Csv.consume env json_loads rest window_size s1) as [[o2 s2] l2].
    unfold logged in IH |- *; cbn [snd] in IH |- *.
    intros [H|H]; [discriminate H|].
    apply in_app_or in H. destruct H as [H|H]; [|exact (IH H)].
    specialize (Hfull H). lia.
Qed.

(** X12.  While fewer records were accepted than the window size, [main]
    of the stall consumer logs no stall alert. *)
Theorem csv_no_alert_during_warm_up (env : Csv.environ)
    (messages : list Csv.kafka_message)
    (Hfew : Z.of_nat (List.length
                        (somes (map (fun m => csv_reading json_loads (Csv.value_of m))
                                  messages)))
            < Csv.SMOKER_ROLLING_WINDOW_SIZE env) :
  forall a b c,
    ~ In (Csv.INFO, Csv.StallDetected a b c) (fst (Csv.main env json_loads messages)).
Proof.
  intros a b c.
  unfold Csv.main, Csv.startup, Csv.get_kafka_topic, Csv.get_kafka_consumer_group_id,
    Csv.get_rolling_window_size, bind.
  cbn [app fst snd Csv.logger emit ret lift].
  unfold deque_new.
  destruct (Z.ltb_spec (Csv.SMOKER_ROLLING_WINDOW_SIZE env) 0) as [Hneg|_]; [lia|].
  cbn [app fst snd Csv.logger emit ret lift].
  set (s0 := {| Csv.rolling_window :=
                  {| maxlen := Csv.SMOKER_ROLLING_WINDOW_SIZE env; items := [] |};
                Csv.continent_stats := [] |}).
  assert (Hrun := csv_consume_warm_up env messages
                    (Csv.SMOKER_ROLLING_WINDOW_SIZE env) s0 Hfew a b c).
  destruct (Csv.consume env json_loads messages _ s0) as [[o s1] l1].
  unfold logged in Hrun; cbn [snd] in Hrun.
  destruct o as [[]|e]; cbn [app fst snd Csv.logger emit ret lift];
    intros H; repeat (destruct H as [H|H]; [discriminate H|]);
    try (apply in_app_or in H; destruct H as [H|H]; [exact (Hrun H)|]);
    try exact (Hrun H);
    repeat (destruct H as [H|H]; [discriminate H|]); destruct H.
Qed.

(** What a logged hot-streak alert says is true of the window at that
    time. *)
Lemma json_alert_sound (env : Json.environ) (message : string) (window_size : Z)
    (w : deque) (p a : value) (n : Z) :
  let r := Json.process_message env json_loads message window_size w in
  In (Json.INFO, Json.HotStreak p a n) (logged r) ->
  n = window_size /\ len (store r) = window_size /\
  mean (store r) = Ok a /\
  py_cmp OpGe a (PFloat (Json.WNBA_HOT_THRESHOLD env)) = Ok true.
Proof.
  intros r. subst r.
  destruct (json_loads message) as [v|] eqn:Hload.
  2:{ rewrite (json_process_message_undecodable json_loads env _ _ _ Hload).
      intros [H|[H|[]]]; discriminate H. }
  destruct (dict_or_not v) as [[d ->]|Hnot].
  2:{ rewrite (json_process_message_not_a_dict json_loads env _ _ _ _ Hload Hnot).
      intros [H|[H|[]]]; discriminate H. }
  destruct (is_None (field d "player") || is_None (field d "ppg")
            || is_None (field d "timestamp")) eqn:Hvalid.
  { rewrite (json_process_message_invalid env json_loads _ _ _ _ Hload Hvalid).
    intros [H|[H|[]]]; discriminate H. }
  rewrite (json_process_message_accepted env json_loads _ _ _ _ Hload Hvalid).
  set (w' := append w (field d "ppg")).
  assert (Hpre : forall tail,
             In (Json.INFO, Json.HotStreak p a n)
                ([(Json.DEBUG, Json.RawMessage message);
                  (Json.INFO, Json.Received (field d "player") (field d "team")
                                (field d "ppg") (field d "timestamp"))]
                   ++ logged (Json.detect_hot_streak env w' tt) ++ tail) ->
             In (Json.INFO, Json.HotStreak p a n) tail).
  { intros tail H.
    apply in_app_or in H. destruct H as [H|H].
    - repeat (destruct H as [H|H]; try discriminate H). contradiction.
    - apply in_app_or in H. destruct H as [H|H]; [|exact H].
      exfalso. exact (detect_hot_streak_logs_no_alert _ _ _ _ _ H). }
  destruct (Z.eqb_spec (len w') window_size) as [Hfull|Hpart].
  2:{ unfold logged; cbn [snd]. intros [H|[H|[]]]; discriminate H. }
  destruct (outcome (Json.detect_hot_streak env w' tt)) as [[|]|e] eqn:Hdet.
  - apply detect_hot_streak_true in Hdet. destruct Hdet as [_ [avg [Hmean Hcmp]]].
    assert (Hmean' := Hmean). unfold mean in Hmean'. rewrite Hfull in Hmean'.
    destruct (py_sum (items w')) as [total|e]; [|discriminate Hmean'].
    rewrite Hmean'. unfold logged at 1; unfold store; cbn [fst snd]. intros H.
    apply Hpre in H. destruct H as [H|[]]. injection H as <- <- <-.
    repeat split; assumption.
  - unfold logged at 1; cbn [snd]. intros H.
    rewrite <- (app_nil_r (logged (Json.detect_hot_streak env w' tt))) in H.
    apply Hpre in H. destruct H.
  - unfold logged at 1; cbn [snd]. intros H.
    apply Hpre in H. destruct H as [H|[]].
    exfalso. exact (json_error_line_is_no_alert _ _ _ _ H).
Qed.

Lemma json_consume_alerts (env : Json.environ) (messages : list string)
    (window_size : Z) (w : deque) (p a : value) (n : Z) :
  In (Json.INFO, Json.HotStreak p a n)
     (logged (Json.consume env json_loads messages window_size w)) ->
  n = window_size /\
  py_cmp OpGe a (PFloat (Json.WNBA_HOT_THRESHOLD env)) = Ok true /\
  window_size
  <= len w + Z.of_nat (List.length (somes (map (json_reading json_loads) messages))).
Proof.
  revert w. induction messages as [|m rest IH]; intros w; cbn [Json.consume].
  - intros [].
  - unfold bind.
    assert (Hsound := json_alert_sound env m window_size w p a n).
    destruct (json_process_message_window json_loads env m window_size w) as [Ho Hw].
    cbv zeta in Hsound.
    destruct (Json.process_message env json_loads m window_size w) as [[o w1] l1].
    unfold store, outcome, logged in Ho, Hw, Hsound; cbn [fst snd] in Ho, Hw, Hsound.
    subst o. specialize (IH w1).
    destruct (Json.consume env json_loads rest window_size w1) as [[o2 w2] l2].
    unfold logged in IH |- *; cbn [snd] in IH |- *. cbn [map].
    set (k := List.length (somes (map (json_reading json_loads) rest))) in *.
    assert (Hlen : len w1 + Z.of_nat k
                   <= len w
                      + Z.of_nat (List.length
                                    (somes (json_reading json_loads m
                                            :: map (json_reading json_loads) rest)))).
    { rewrite Hw. destruct (json_reading json_loads m) as [v|]; cbn [somes].
      - cbn [List.length]. fold k. assert (H := len_append_le w v). lia.
      - fold k. lia. }
    intros H. apply in_app_or in H. destruct H as [H|H].
    + destruct (Hsound H) as [Hn [Hfull [_ Hcmp]]].
      split; [exact Hn|]. split; [exact Hcmp|]. lia.
    + destruct (IH H) as [Hn [Hcmp Hroom]].
      split; [exact Hn|]. split; [exact Hcmp|]. lia.
Qed.

(** X13.  Every hot-streak alert [main] logs is justified: it names the
    configured window size, its average meets the threshold, and at least
    that many records had been accepted; in particular no alert is logged
    while fewer records were accepted than the window size. *)
Theorem json_alerts_are_justified (env : Json.environ) (messages : list string)
    (p a : value) (n : Z)
    (Hin : In (Json.INFO, Json.HotStreak p a n)
              (fst (Json.main env json_loads messages))) :
  n = Json.WNBA_ROLLING_WINDOW_SIZE env /\
  py_cmp OpGe a (PFloat (Json.WNBA_HOT_THRESHOLD env)) = Ok true /\
  Json.WNBA_ROLLING_WINDOW_SIZE env
  <= Z.of_nat (List.length (somes (map (json_reading json_loads) messages))).
Proof.
  revert Hin.
  unfold Json.main, Json.startup, Json.get_kafka_topic,
    Json.get_kafka_consumer_group_id, Json.get_rolling_window_size, bind.
  cbn [app fst snd Json.logger emit ret lift].
  unfold deque_new.
  destruct (Z.ltb_spec (Json.WNBA_ROLLING_WINDOW_SIZE env) 0) as [Hneg|_].
  - cbn [fst]. intros H. repeat (destruct H as [H|H]; [discriminate H|]). destruct H.
  - cbn [app fst snd Json.logger emit ret lift].
    assert (Hrun := json_consume_alerts env messages
                      (Json.WNBA_ROLLING_WINDOW_SIZE env)
                      {| maxlen := Json.WNBA_ROLLING_WINDOW_SIZE env; items := [] |}
                      p a n).
    destruct (Json.consume env json_loads messages _ _) as [[o w1] l1].
    unfold logged in Hrun; cbn [snd] in Hrun.
    assert (Hgoal : In (Json.INFO, Json.HotStreak p a n) l1 ->
                    n = Json.WNBA_ROLLING_WINDOW_SIZE env /\
                    py_cmp OpGe a (PFloat (Json.WNBA_HOT_THRESHOLD env)) = Ok true /\
                    Json.WNBA_ROLLING_WINDOW_SIZE env
                    <= Z.of_nat (List.length
                                   (somes (map (json_reading json_loads) messages)))).
    { intros H. destruct (Hrun H) as [Hn [Hcmp Hroom]].
      split; [exact Hn|]. split; [exact Hcmp|]. unfold len in Hroom.
      cbn [items List.length] in Hroom. lia. }
    destruct o as [[]|e]; cbn [app fst snd Json.logger emit ret lift];
      intros H; repeat (destruct H as [H|H]; [discriminate H|]);
      try (apply in_app_or in H; destruct H as [H|H]; [exact (Hgoal H)|]);
      try exact (Hgoal H);
      repeat (destruct H as [H|H]; [discriminate H|]); destruct H.
Qed.

End AlertsOverRuns.

(** ** A window of size zero *)

Section ZeroWindow.
Import Py Eff Window Handlers Stream Examples.
Variable json_loads : string -> option value.

Lemma csv_zero_window_step (env : Csv.environ) (message : string) (window_size : Z)
    (s : Csv.state) :
  Csv.SMOKER_ROLLING_WINDOW_SIZE env = 0 ->
  Csv.rolling_window s = {| maxlen := 0; items := [] |} ->
  let r := Csv.process_message env json_loads message window_size s in
  store r = s /\
  forall c a n, ~ In (Csv.INFO, Csv.ContinentAvg c a n) (logged r).
Proof.
  intros HN Hw r. subst r.
  destruct (json_loads message) as [v|] eqn:Hload.
  2:{ rewrite (csv_process_message_undecodable env json_loads _ _ _ Hload).
      split; [reflexivity|]. intros c a n [H|[H|[]]]; discriminate H. }
  destruct (dict_or_not v) as [[d ->]|Hnot].
  2:{ rewrite (csv_process_message_not_a_dict env json_loads _ _ _ _ Hload Hnot).
      split; [reflexivity|]. intros c a n [H|[H|[]]]; discriminate H. }
  destruct (is_None (field d "temperature") || is_None (field d "timestamp"))
    eqn:Hvalid.
  { rewrite (csv_process_message_invalid env json_loads _ _ _ _ Hload Hvalid).
    split; [reflexivity|]. intros c a n [H|[H|[H|[]]]]; discriminate H. }
  rewrite (csv_process_message_accepted env json_loads _ _ _ _ Hload Hvalid).
  assert (Hpushed : pushed s (field d "temperature") = s).
  { destruct s as [w st]. cbn in Hw. subst w. reflexivity. }
  rewrite Hpushed.
  assert (Hseen := detect_stall_lines env (Csv.rolling_window s)).
  rewrite Forall_forall in Hseen.
  assert (Hdet : outcome (Csv.detect_stall env (Csv.rolling_window s) tt)
                 = Raise ValueError).
  { rewrite detect_stall_outcome, HN, Hw. reflexivity. }
  rewrite Hdet. unfold store, logged at 1; cbn [fst snd].
  split; [reflexivity|]. intros c a n H.
  repeat (apply in_app_or in H; destruct H as [H|H]).
  - destruct H as [H|[H|[]]]; discriminate H.
  - apply Hseen in H. discriminate H.
  - destruct H as [H|[]]. discriminate H.
Qed.

Lemma csv_zero_window_consume (env : Csv.environ) (messages : list Csv.kafka_message)
    (window_size : Z) (s : Csv.state) :
  Csv.SMOKER_ROLLING_WINDOW_SIZE env = 0 ->
  Csv.rolling_window s = {| maxlen := 0; items := [] |} ->
  let r := Csv.consume env json_loads messages window_size s in
  store r = s /\
  forall c a n, ~ In (Csv.INFO, Csv.ContinentAvg c a n) (logged r).
Proof.
  intros HN Hw.
  induction messages as [|m rest IH]; cbn [Csv.consume].
  - split; [reflexivity|]. intros c a n [].
  - unfold bind. cbn [Csv.logger emit fst snd app].
    destruct (csv_zero_window_step env (Csv.value_of m) window_size s HN Hw)
      as [Hs Hl].
    assert (Ho := proj1 (csv_process_message_window json_loads env
                           (Csv.value_of m) window_size s)).
    destruct (Csv.process_message env json_loads (Csv.value_of m) window_size s)
      as [[o s1] l1].
    unfold store, outcome, logged in Hs, Hl, Ho; cbn [fst snd] in Hs, Hl, Ho.
    subst o s1.
    destruct IH as [Hs' Hl'].
    destruct (Csv.consume env json_loads rest window_size s) as [[o2 s2] l2].
    unfold store, logged in *; cbn [fst snd] in *.
    split; [exact Hs'|]. intros c a n [H|H]; [discriminate H|].
    apply in_app_or in H. destruct H as [H|H]; [exact (Hl _ _ _ H)|exact (Hl' _ _ _ H)].
Qed.

(** X14.  With the window size 0 the stall consumer never aggregates:
    the window stays empty, the detector fails on it for every accepted
    record, and whatever the messages [main] ends with an empty
    [continent_stats] and has logged no average. *)
Theorem zero_window_size_disables_aggregation (env : Csv.environ)
    (messages : list Csv.kafka_message)
    (HN : Csv.SMOKER_ROLLING_WINDOW_SIZE env = 0) :
  snd (Csv.main env json_loads messages)
  = Ok {| Csv.rolling_window := {| maxlen := 0; items := [] |};
          Csv.continent_stats := [] |} /\
  forall c a n,
    ~ In (Csv.INFO, Csv.ContinentAvg c a n) (fst (Csv.main env json_loads messages)).
Proof.
  unfold Csv.main, Csv.startup, Csv.get_kafka_topic, Csv.get_kafka_consumer_group_id,
    Csv.get_rolling_window_size, bind.
  cbn [app fst snd Csv.logger emit ret lift].
  rewrite HN. cbn [deque_new Z.ltb Z.compare app fst snd Csv.logger emit ret lift].
  set (s0 := {| Csv.rolling_window := {| maxlen := 0; items := [] |};
                Csv.continent_stats := [] |}).
  destruct (csv_zero_window_consume env messages 0 s0 HN eq_refl) as [Hs Hl].
  destruct (Csv.consume env json_loads messages 0 s0) as [[o s1] l1].
  unfold store, logged in Hs, Hl; cbn [fst snd] in Hs, Hl. subst s1.
  destruct o as [[]|e]; cbn [app fst snd Csv.logger emit ret lift];
    (split; [reflexivity|]); intros c a n H;
    repeat (destruct H as [H|H]; [discriminate H|]);
    try (apply in_app_or in H; destruct H as [H|H]; [exact (Hl _ _ _ H)|]);
    try exact (Hl _ _ _ H);
    repeat (destruct H as [H|H]; [discriminate H|]); destruct H.
Qed.

End ZeroWindow.

(** ** The producer, and the producer feeding the hot-streak consumer *)

Section Pipeline.
Import Py Eff Window Handlers Stream Examples.










End Pipeline.

(** ** The hot-streak consumer: what an alert reports, and divisions *)

Section HotStreakRuns.
Import Py Eff Window Handlers Stream Examples.
Variable json_loads : string -> option value.

(** X17.  A hot-streak alert names the player of the record being
    processed, but its average is the mean of the whole window after the
    push, whichever players the earlier values came from: the window is
    shared by all players. *)
Theorem alert_reports_shared_window_mean (env : Json.environ) (message : string)
    (window_size : Z) (w : deque) (d : list (string * value)) (p a : value) (n : Z)
    (Hload : json_loads message = Some (PDict d))
    (Hin : In (Json.INFO, Json.HotStreak p a n)
              (logged (Json.process_message env json_loads message window_size w))) :
  p = field d "player" /\
  mean (append w (field d "ppg")) = Ok a /\
  len (append w (field d "ppg")) = n.
Proof.
  destruct (json_alert_sound json_loads env message window_size w p a n Hin)
    as [Hn [Hfull [Hmean _]]].
  destruct (is_None (field d "player") || is_None (field d "ppg")
            || is_None (field d "timestamp")) eqn:Hvalid.
  { exfalso. revert Hin.
    rewrite (json_process_message_invalid env json_loads _ _ _ _ Hload Hvalid).
    intros [H|[H|[]]]; discriminate H. }
  assert (Hstore : store (Json.process_message env json_loads message window_size w)
                   = append w (field d "ppg")).
  { destruct (json_process_message_window json_loads env message window_size w)
      as [_ Hw].
    rewrite Hw. unfold json_reading. rewrite Hload, Hvalid. reflexivity. }
  rewrite Hstore in Hmean, Hfull.
  split; [|split; [exact Hmean|lia]].
  assert (Hiff := json_alert_iff env json_loads message window_size w d Hload Hvalid).
  revert Hin.
  rewrite (json_process_message_accepted env json_loads _ _ _ _ Hload Hvalid).
  destruct (len _ =? window_size).
  2:{ unfold logged; cbn [snd]. intros [H|[H|[]]]; discriminate H. }
  assert (Hno := detect_hot_streak_logs_no_alert env (append w (field d "ppg")) p a n).
  destruct (outcome (Json.detect_hot_streak env _ tt)) as [[|]|e];
    try (destruct (py_sum _) as [total|e]);
    try (destruct (py_truediv total _) as [average|e]);
    unfold logged at 1; cbn [snd]; intros H;
    repeat (apply in_app_or in H; destruct H as [H|H]);
    try (repeat (destruct H as [H|H]; try discriminate H); contradiction);
    try contradiction;
    try (destruct H as [H|[]]; exfalso;
         exact (json_error_line_is_no_alert _ _ _ _ H)).
  destruct H as [H|[]]. injection H as <- _ _. reflexivity.
Qed.

Lemma sum_from_raises (l : list value) (acc : value) (e : exn) :
  sum_from acc l = Raise e -> e <> ZeroDivisionError.
Proof.
  revert acc; induction l as [|x l IH]; intros acc; simpl; [discriminate|].
  destruct (py_add acc x) as [acc'|e'] eqn:Hadd; [apply IH|].
  intros H; injection H as <-. exact (py_add_raises _ _ _ Hadd).
Qed.

Lemma mean_raises (d : deque) (e : exn) :
  items d <> [] -> mean d = Raise e -> e <> ZeroDivisionError.
Proof.
  intros Hne. unfold mean, py_sum.
  destruct (sum_from (PInt 0) (items d)) as [total|e'] eqn:Hsum.
  - apply py_truediv_by_count. unfold len.
    destruct (items d); [contradiction|]. simpl. lia.
  - intros H; injection H as <-. exact (sum_from_raises _ _ _ Hsum).
Qed.

Lemma detect_hot_streak_raises (env : Json.environ) (d : deque) (e : exn) :
  outcome (Json.detect_hot_streak env d tt) = Raise e -> e <> ZeroDivisionError.
Proof.
  rewrite detect_hot_streak_outcome.
  destruct (items d) as [|x l] eqn:Hitems; [discriminate|].
  destruct (mean d) as [avg|e'] eqn:Hmean.
  - intros H. rewrite (py_cmp_raises _ _ _ _ H). discriminate.
  - intros H; injection H as <-. apply (mean_raises d); [|exact Hmean].
    rewrite Hitems. discriminate.
Qed.

Lemma detect_hot_streak_logs_no_error (env : Json.environ) (d : deque) (e : exn) :
  ~ In (Json.ERROR, Json.ErrorProcessingMessage e)
       (logged (Json.detect_hot_streak env d tt)).
Proof.
  unfold Json.detect_hot_streak, Json.get_hot_threshold, Json.logger, bind, emit,
    lift, ret, logged.
  cbn.
  repeat match goal with
         | |- context [match items ?d with [] => _ | _ :: _ => _ end] =>
             destruct (items d); cbn
         | |- context [match ?r with Ok _ => _ | Raise _ => _ end] =>
             destruct r; cbn
         end;
    intros H; repeat (destruct H as [H|H]; try discriminate H); exact H.
Qed.

Lemma json_step_no_zero_division (env : Json.environ) (message : string)
    (window_size : Z) (w : deque) :
  ~ In (Json.ERROR, Json.ErrorProcessingMessage ZeroDivisionError)
       (logged (Json.process_message env json_loads message window_size w)).
Proof.
  destruct (json_loads message) as [v|] eqn:Hload.
  2:{ rewrite (json_process_message_undecodable json_loads env _ _ _ Hload).
      intros [H|[H|[]]]; discriminate H. }
  destruct (dict_or_not v) as [[d ->]|Hnot].
  2:{ rewrite (json_process_message_not_a_dict json_loads env _ _ _ _ Hload Hnot).
      intros [H|[H|[]]]; discriminate H. }
  destruct (is_None (field d "player") || is_None (field d "ppg")
            || is_None (field d "timestamp")) eqn:Hvalid.
  { rewrite (json_process_message_invalid env json_loads _ _ _ _ Hload Hvalid).
    intros [H|[H|[]]]; discriminate H. }
  rewrite (json_process_message_accepted env json_loads _ _ _ _ Hload Hvalid).
  set (w' := append w (field d "ppg")).
  assert (Hseen := detect_hot_streak_logs_no_error env w' ZeroDivisionError).
  assert (Hline : forall e, e <> ZeroDivisionError ->
                            json_error_line e
                            <> (Json.ERROR, Json.ErrorProcessingMessage ZeroDivisionError)).
  { intros e He H. destruct e; try discriminate H. apply He; reflexivity. }
  destruct (Z.eqb_spec (len w') window_size) as [Hfull|Hpart].
  2:{ unfold logged; cbn [snd]. intros [H|[H|[]]]; discriminate H. }
  destruct (outcome (Json.detect_hot_streak env w' tt)) as [[|]|e] eqn:Hdet.
  - apply detect_hot_streak_true in Hdet. destruct Hdet as [_ [avg [Hmean _]]].
    unfold mean in Hmean. rewrite Hfull in Hmean.
    destruct (py_sum (items w')) as [total|e]; [|discriminate Hmean].
    rewrite Hmean. unfold logged at 1; cbn [snd]. intros H.
    repeat (apply in_app_or in H; destruct H as [H|H]);
      try (repeat (destruct H as [H|H]; try discriminate H); contradiction);
      try exact (Hseen H).
  - unfold logged at 1; cbn [snd]. intros H.
    repeat (apply in_app_or in H; destruct H as [H|H]);
      try (repeat (destruct H as [H|H]; try discriminate H); contradiction);
      try exact (Hseen H).
  - unfold logged at 1; cbn [snd]. intros H.
    repeat (apply in_app_or in H; destruct H as [H|H]);
      try (destruct H as [H|[]];
           exact (Hline e (detect_hot_streak_raises env w' e Hdet) H));
      try (repeat (destruct H as [H|H]; try discriminate H); contradiction);
      try exact (Hseen H).
Qed.

(** X18.  The hot-streak consumer never divides by zero: whatever the
    messages, the log of [main] reports no [ZeroDivisionError]; the mean is
    only taken on a window that is not empty. *)
Theorem json_never_divides_by_zero (env : Json.environ) (messages : list string) :
  ~ In (Json.ERROR, Json.ErrorProcessingMessage ZeroDivisionError)
       (fst (Json.main env json_loads messages)).
Proof.
  assert (Hrun : forall w,
             ~ In (Json.ERROR, Json.ErrorProcessingMessage ZeroDivisionError)
                  (logged (Json.consume env json_loads messages
                             (Json.WNBA_ROLLING_WINDOW_SIZE env) w))).
  { induction messages as [|m rest IH]; intros w; cbn [Json.consume].
    - intros [].
    - unfold bind.
      assert (Hstep := json_step_no_zero_division env m
                         (Json.WNBA_ROLLING_WINDOW_SIZE env) w).
      assert (Ho := proj1 (json_process_message_window json_loads env m
                             (Json.WNBA_ROLLING_WINDOW_SIZE env) w)).
      destruct (Json.process_message env json_loads m _ w) as [[o w1] l1].
      unfold outcome, logged in Ho, Hstep; cbn [fst snd] in Ho, Hstep. subst o.
      specialize (IH w1).
      destruct (Json.consume env json_loads rest _ w1) as [[o2 w2] l2].
      unfold logged in IH |- *; cbn [snd] in IH |- *.
      intros H. apply in_app_or in H. destruct H as [H|H]; [exact (Hstep H)|exact (IH H)]. }
  unfold Json.main, Json.startup, Json.get_kafka_topic,
    Json.get_kafka_consumer_group_id, Json.get_rolling_window_size, bind.
  cbn [app fst snd Json.logger emit ret lift].
  unfold deque_new.
  destruct (Z.ltb_spec (Json.WNBA_ROLLING_WINDOW_SIZE env) 0) as [Hneg|_].
  - cbn [fst]. intros H. repeat (destruct H as [H|H]; [discriminate H|]). destruct H.
  - cbn [app fst snd Json.logger emit ret lift].
    specialize (Hrun {| maxlen := Json.WNBA_ROLLING_WINDOW_SIZE env; items := [] |}).
    destruct (Json.consume env json_loads messages _ _) as [[o w1] l1].
    unfold logged in Hrun; cbn [snd] in Hrun.
    destruct o as [[]|e]; cbn [app fst snd Json.logger emit ret lift];
      intros H; repeat (destruct H as [H|H]; [discriminate H|]);
      try (apply in_app_or in H; destruct H as [H|H]; [exact (Hrun H)|]);
      try exact (Hrun H);
      repeat (destruct H as [H|H]; [discriminate H|]); destruct H.
Qed.

End HotStreakRuns.

(** * Instances of the further properties *)

Section Instances.
Import Py Eff Window Handlers Stream Examples.





Lemma record_without_continent_is_not_aggregated_witness :
  let d := wnba_fields_no_player ++ [("temperature", PFloat 225.0)] in
  let json_loads := decodes_to (PDict d) in
  let s := {| Csv.rolling_window := flat_window; Csv.continent_stats := [] |} in
  let r := Csv.process_message (smoker_env 0.2) json_loads "m" 5 s in
  json_loads "m" = Some (PDict d) /\
  field d "temperature" <> PNone /\
  field d "timestamp" <> PNone /\
  truthy (field d "continent") = false /\
  Csv.continent_stats (store r) = Csv.continent_stats s /\
  forall c a n, ~ In (Csv.INFO, Csv.ContinentAvg c a n) (logged r).
Proof.
  intros d json_loads s r.
  split; [reflexivity|]. split; [discriminate|]. split; [discriminate|].
  split; [reflexivity|].
  exact (record_without_continent_is_not_aggregated json_loads "m" d eq_refl
           ltac:(discriminate) ltac:(discriminate) eq_refl (smoker_env 0.2) 5 s).
Defined.

Lemma unhashable_continent_is_an_error_witness :
  let d := [("timestamp", PStr "2025-01-11T18:15:00Z");
            ("temperature", PFloat 225.0);
            ("continent", PList [PStr "Asia"])] in
  let json_loads := decodes_to (PDict d) in
  let s := {| Csv.rolling_window := flat_window; Csv.continent_stats := [] |} in
  let r := Csv.process_message (smoker_env 0.2) json_loads "m" 5 s in
  json_loads "m" = Some (PDict d) /\
  field d "temperature" <> PNone /\
  field d "timestamp" <> PNone /\
  truthy (field d "continent") = true /\
  hashable (field d "continent") = false /\
  Csv.rolling_window (store r)
  = append (Csv.rolling_window s) (field d "temperature") /\
  Csv.continent_stats (store r) = Csv.continent_stats s /\
  (exists e, In (csv_error_line "m" e) (logged r)) /\
  forall c a n, ~ In (Csv.INFO, Csv.ContinentAvg c a n) (logged r).
Proof.
  intros d json_loads s r.
  split; [reflexivity|]. split; [discriminate|]. split; [discriminate|].
  split; [reflexivity|]. split; [reflexivity|].
  exact (unhashable_continent_is_an_error json_loads "m" d eq_refl
           ltac:(discriminate) ltac:(discriminate) eq_refl eq_refl
           (smoker_env 0.2) 5 s).
Defined.

Lemma count_without_sum_witness :
  let d := smoker_fields_text in
  let json_loads := decodes_to (PDict d) in
  let env := smoker_env 0.2 in
  let s := {| Csv.rolling_window := young_window; Csv.continent_stats := [] |} in
  let old := standing (PStr "Asia") (Csv.continent_stats s) in
  let r := Csv.process_message env json_loads "m" 5 s in
  json_loads "m" = Some (PDict d) /\
  field d "temperature" <> PNone /\
  is_num (field d "temperature") = false /\
  field d "timestamp" <> PNone /\
  field d "continent" = PStr "Asia" /\
  "Asia" <> "" /\
  len (append (Csv.rolling_window s) (field d "temperature"))
  < Csv.SMOKER_ROLLING_WINDOW_SIZE env /\
  is_num (Csv.sum_temp old) = true /\
  stats_get (PStr "Asia") (Csv.continent_stats (store r))
  = Some {| Csv.count := Csv.count old + 1; Csv.sum_temp := Csv.sum_temp old |} /\
  In (Csv.ERROR, Csv.ErrorProcessingMessage "m" TypeError) (logged r) /\
  forall c a n, ~ In (Csv.INFO, Csv.ContinentAvg c a n) (logged r).
Proof.
  intros d json_loads env s old r.
  split; [reflexivity|]. split; [discriminate|]. split; [reflexivity|].
  split; [discriminate|]. split; [reflexivity|]. split; [discriminate|].
  split; [reflexivity|]. split; [reflexivity|].
  exact (count_without_sum json_loads env "m" 5 s d "Asia" eq_refl
           ltac:(discriminate) eq_refl ltac:(discriminate) eq_refl
           ltac:(discriminate) eq_refl eq_refl).
Defined.


Lemma csv_no_alert_during_warm_up_witness :
  let env := smoker_env 0.2 in
  Z.of_nat (List.length
              (somes (map (fun m => csv_reading asia_decoder (Csv.value_of m))
                        asia_messages)))
  < Csv.SMOKER_ROLLING_WINDOW_SIZE env /\
  forall a b c,
    ~ In (Csv.INFO, Csv.StallDetected a b c)
         (fst (Csv.main env asia_decoder asia_messages)).
Proof.
  intros env. split; [reflexivity|].
  exact (csv_no_alert_during_warm_up asia_decoder env asia_messages eq_refl).
Defined.

Lemma zero_window_size_disables_aggregation_witness :
  let env := {| Csv.SMOKER_TOPIC := "unknown_topic";
                Csv.SMOKER_CONSUMER_GROUP_ID := "default_group";
                Csv.SMOKER_STALL_THRESHOLD_F := 0.2;
                Csv.SMOKER_ROLLING_WINDOW_SIZE := 0 |} in
  Csv.SMOKER_ROLLING_WINDOW_SIZE env = 0 /\
  snd (Csv.main env asia_decoder asia_messages)
  = Ok {| Csv.rolling_window := {| maxlen := 0; items := [] |};
          Csv.continent_stats := [] |} /\
  forall c a n,
    ~ In (Csv.INFO, Csv.ContinentAvg c a n)
         (fst (Csv.main env asia_decoder asia_messages)).
Proof.
  intros env. split; [reflexivity|].
  exact (zero_window_size_disables_aggregation asia_decoder env asia_messages eq_refl).
Defined.


Lemma json_alerts_are_justified_witness :
  let env := wnba_env 20 in
  let json_loads := decodes_to (PDict wnba_fields) in
  let messages := ["m1"; "m2"; "m3"; "m4"; "m5"] in
  exists a,
    In (Json.INFO, Json.HotStreak (PStr "A'ja Wilson") a 5)
       (fst (Json.main env json_loads messages)) /\
    (5 = Json.WNBA_ROLLING_WINDOW_SIZE env /\
     py_cmp OpGe a (PFloat (Json.WNBA_HOT_THRESHOLD env)) = Ok true /\
     Json.WNBA_ROLLING_WINDOW_SIZE env
     <= Z.of_nat (List.length (somes (map (json_reading json_loads) messages)))).
Proof.
  intros env json_loads messages. eexists ?[a].
  assert (Hin : In (Json.INFO, Json.HotStreak (PStr "A'ja Wilson") ?a 5)
                   (fst (Json.main env json_loads messages))).
  { cbv. repeat (first [left; reflexivity | right]). }
  split; [exact Hin|].
  exact (json_alerts_are_justified json_loads env messages _ _ _ Hin).
Defined.

Lemma alert_reports_shared_window_mean_witness :
  let env := wnba_env 20 in
  let json_loads := decodes_to (PDict wnba_fields) in
  exists a,
    json_loads "m" = Some (PDict wnba_fields) /\
    In (Json.INFO, Json.HotStreak (PStr "A'ja Wilson") a 5)
       (logged (Json.process_message env json_loads "m" 5 four_games)) /\
    (PStr "A'ja Wilson" = field wnba_fields "player" /\
     mean (append four_games (field wnba_fields "ppg")) = Ok a /\
     len (append four_games (field wnba_fields "ppg")) = 5).
Proof.
  intros env json_loads. eexists ?[a].
  assert (Hin : In (Json.INFO, Json.HotStreak (PStr "A'ja Wilson") ?a 5)
                   (logged (Json.process_message env json_loads "m" 5 four_games))).
  { cbv. repeat (first [left; reflexivity | right]). }
  split; [reflexivity|]. split; [exact Hin|].
  exact (alert_reports_shared_window_mean json_loads env "m" 5 four_games
           wnba_fields _ _ _ eq_refl Hin).
Defined.

End Instances.
